(** * SQL_Tool: the value encoder and the chunked INSERT generator

    A shallow embedding of [app.py]: [escape_mysql], [format_sql_value],
    [generate_chunked_insert_queries] and the page script around them
    (loading of the upload, rename form, submit handler with the
    TRUNCATE wrapping and the preview), followed by the properties the
    specification states about them and by further properties of the
    code.

    Conventions.
    - Python [str] is [string]; [+:+] is concatenation.
    - Python [int] is [Z].
    - A [dict] is a [gmap], a [set] a [gset].
    - A built-in that raises is modelled with [option]: [None] is the
      exception (or [st.stop()] for the page script). *)

From Stdlib Require Import ZArith String Ascii List Lia DecimalString DecimalPos DecimalZ.
From stdpp Require Import gmap strings list.
Import ListNotations.

Local Open Scope string_scope.
Local Open Scope Z_scope.

(** ** Characters the code names *)

Module Chr.
Definition backslash : ascii := "\"%char.
Definition squote : ascii := "'"%char.
Definition dquote : ascii := "034"%char.
Definition newline : ascii := "010"%char.
Definition cr : ascii := "013"%char.
Definition n : ascii := "n"%char.
Definition r : ascii := "r"%char.
End Chr.

(** One-character string. *)
Definition chr (c : ascii) : string := String c EmptyString.

(** ** Python built-ins used by the code *)

Module Py.

(** [sep.join(items)]. *)
Fixpoint join (sep : string) (items : list string) : string :=
  match items with
  | [] => ""
  | [x] => x
  | x :: rest => x +:+ sep +:+ join sep rest
  end.

(** [s.replace(old, new)] for a non-empty [old]: scan left to right,
    at each position where [old] starts emit [new] and jump over the
    match ([skip] counts the characters of the match still to jump). *)
Fixpoint replace_from (old new : string) (skip : nat) (s : string) : string :=
  match s with
  | EmptyString => EmptyString
  | String c s' =>
      match skip with
      | S k => replace_from old new k s'
      | O =>
          if String.prefix old s
          then new +:+ replace_from old new (Nat.pred (String.length old)) s'
          else String c (replace_from old new O s')
      end
  end.

(** [s.replace("", new)] puts [new] before every character and at the end. *)
Fixpoint intersperse_all (new s : string) : string :=
  match s with
  | EmptyString => new
  | String c s' => new +:+ String c (intersperse_all new s')
  end.

Definition replace (s old new : string) : string :=
  match old with
  | EmptyString => intersperse_all new s
  | _ => replace_from old new O s
  end.

(** [range(start, stop, step)] as the list of its elements; a zero step
    raises [ValueError]. The length is computed as CPython does. *)
Definition range_length (start stop step : Z) : Z :=
  if 0 <? step then
    if start <? stop then (stop - start - 1) / step + 1 else 0
  else
    if stop <? start then (start - stop - 1) / (- step) + 1 else 0.

Definition range (start stop step : Z) : option (list Z) :=
  if step =? 0 then None
  else Some (map (fun i : nat => start + Z.of_nat i * step)
                 (seq 0 (Z.to_nat (range_length start stop step)))).

(** A slice bound clamped to [0 .. n], negative bounds counting from
    the end. *)
Definition clamp (n i : Z) : Z :=
  if i <? 0 then Z.max (i + n) 0 else Z.min i n.

(** [l[start:stop]]. *)
Definition slice {A} (l : list A) (start stop : Z) : list A :=
  let n := Z.of_nat (length l) in
  let lo := clamp n start in
  let hi := clamp n stop in
  firstn (Z.to_nat (hi - lo)) (skipn (Z.to_nat lo) l).

(** [str(i)] for an [int]. *)
Definition str_int (i : Z) : string := NilZero.string_of_int (Z.to_int i).

(** [str(b)] for a [bool]. *)
Definition str_bool (b : bool) : string := if b then "True" else "False".

(** [format(i, "0{w}d")] for a non-negative [i]. *)
Definition zero_pad (w : nat) (i : Z) : string :=
  let s := str_int i in
  String.concat "" (repeat "0" (w - String.length s)) +:+ s.

(** [s.split(sep)] for a one-character separator, as the code calls it:
    the pieces between the separators, at least one piece. *)
Fixpoint split (s : string) (sep : ascii) : list string :=
  match s with
  | EmptyString => [EmptyString]
  | String c s' =>
      if Ascii.eqb c sep then EmptyString :: split s' sep
      else match split s' sep with
           | piece :: pieces => String c piece :: pieces
           | [] => [String c EmptyString]
           end
  end.

(** [c.isspace()] for a character below 256: tab to carriage return,
    the four separators 28 to 31, space, next line and no-break space. *)
Definition isspace (c : ascii) : bool :=
  let k := nat_of_ascii c in
  ((9 <=? k) && (k <=? 13) || (28 <=? k) && (k <=? 32)
   || (k =? 133) || (k =? 160))%nat.

(** [s.lstrip()], [s.rstrip()] and [s.strip()] without argument. *)
Fixpoint lstrip (s : string) : string :=
  match s with
  | EmptyString => EmptyString
  | String c s' => if isspace c then lstrip s' else s
  end.

Fixpoint rstrip (s : string) : string :=
  match s with
  | EmptyString => EmptyString
  | String c s' =>
      match rstrip s' with
      | EmptyString => if isspace c then EmptyString else String c EmptyString
      | rest => String c rest
      end
  end.

Definition strip (s : string) : string := rstrip (lstrip s).

(** [bool(s)] for a [str]: true unless the string is empty. *)
Definition str_truth (s : string) : bool :=
  match s with
  | EmptyString => false
  | String _ _ => true
  end.

(** [len(s)] for a [str]. *)
Definition str_len (s : string) : Z := Z.of_nat (String.length s).

Fixpoint take_chars (k : nat) (s : string) : string :=
  match k, s with
  | S k', String c s' => String c (take_chars k' s')
  | _, _ => EmptyString
  end.

Fixpoint drop_chars (k : nat) (s : string) : string :=
  match k, s with
  | S k', String _ s' => drop_chars k' s'
  | _, _ => s
  end.

(** [s[start:stop]] for a [str]. *)
Definition str_slice (s : string) (start stop : Z) : string :=
  let lo := clamp (str_len s) start in
  let hi := clamp (str_len s) stop in
  take_chars (Z.to_nat (hi - lo)) (drop_chars (Z.to_nat lo) s).

End Py.

(** ** Python values

    The values a cell of the table can hold when a row is iterated. A
    float is either NaN or a number given by the text [str] yields for
    it; the conversion itself belongs to the runtime. Date-times are
    naive (no offset). [PyObject] is any other non-null object, given by
    its [str] text. *)

Inductive pyfloat :=
| FNaN
| FNum (text : string).

Record date := { year : Z; month : Z; day : Z }.

Record time := { hour : Z; minute : Z; second : Z; microsecond : Z }.

Inductive pyval :=
| PyNone
| PdNaT
| PdNA
| PyBool (b : bool)
| NpBool (b : bool)
| PyInt (i : Z)
| NpInt (i : Z)
| PyFloat (f : pyfloat)
| NpFloat (f : pyfloat)
| PyDate (d : date)
| PyDateTime (d : date) (t : time)
| PyStr (s : string)
| PyObject (text : string).

(** The classes the code tests with [isinstance]. *)
Inductive pytype :=
| T_object
| T_NoneType
| T_NaTType
| T_NAType
| T_bool
| T_int
| T_float
| T_str
| T_date
| T_datetime
| T_np_bool
| T_np_integer
| T_np_int64
| T_np_floating
| T_np_float64.

Definition pytype_eqb (a b : pytype) : bool :=
  match a, b with
  | T_object, T_object | T_NoneType, T_NoneType | T_NaTType, T_NaTType
  | T_NAType, T_NAType | T_bool, T_bool | T_int, T_int | T_float, T_float
  | T_str, T_str | T_date, T_date | T_datetime, T_datetime
  | T_np_bool, T_np_bool | T_np_integer, T_np_integer
  | T_np_int64, T_np_int64 | T_np_floating, T_np_floating
  | T_np_float64, T_np_float64 => true
  | _, _ => false
  end.

(** [type(val)]. *)
Definition type_of (val : pyval) : pytype :=
  match val with
  | PyNone => T_NoneType
  | PdNaT => T_NaTType
  | PdNA => T_NAType
  | PyBool _ => T_bool
  | NpBool _ => T_np_bool
  | PyInt _ => T_int
  | NpInt _ => T_np_int64
  | PyFloat _ => T_float
  | NpFloat _ => T_np_float64
  | PyDate _ => T_date
  | PyDateTime _ _ => T_datetime
  | PyStr _ => T_str
  | PyObject _ => T_object
  end.

(** The proper base classes of a class: [bool] derives from [int],
    [datetime] from [date], [np.int64] from [np.integer], [np.float64]
    from [np.floating] and from [float]; [np.bool_] derives from neither
    [int] nor [np.integer]. *)
Definition bases (t : pytype) : list pytype :=
  match t with
  | T_bool => [T_int; T_object]
  | T_datetime => [T_date; T_object]
  | T_np_int64 => [T_np_integer; T_object]
  | T_np_float64 => [T_np_floating; T_float; T_object]
  | T_object => []
  | _ => [T_object]
  end.

Definition issubclass (t cls : pytype) : bool :=
  pytype_eqb t cls || existsb (pytype_eqb cls) (bases t).

(** [isinstance(val, classes)] for a tuple of classes. *)
Definition isinstance (val : pyval) (classes : list pytype) : bool :=
  existsb (issubclass (type_of val)) classes.

(** [d.isoformat()] of a [date]. *)
Definition date_isoformat (d : date) : string :=
  Py.zero_pad 4 (year d) +:+ "-" +:+ Py.zero_pad 2 (month d) +:+ "-"
  +:+ Py.zero_pad 2 (day d).

Definition time_isoformat (t : time) : string :=
  Py.zero_pad 2 (hour t) +:+ ":" +:+ Py.zero_pad 2 (minute t) +:+ ":"
  +:+ Py.zero_pad 2 (second t)
  +:+ (if microsecond t =? 0 then "" else "." +:+ Py.zero_pad 6 (microsecond t)).

(** [dt.isoformat(sep)] of a [datetime]. *)
Definition datetime_isoformat (sep : string) (d : date) (t : time) : string :=
  date_isoformat d +:+ sep +:+ time_isoformat t.

(** [val.isoformat()]; only date and date-time values have the method,
    and the code calls it under the [isinstance] test for them. *)
Definition isoformat (val : pyval) : string :=
  match val with
  | PyDate d => date_isoformat d
  | PyDateTime d t => datetime_isoformat "T" d t
  | _ => ""
  end.

Definition str_float (f : pyfloat) : string :=
  match f with
  | FNaN => "nan"
  | FNum text => text
  end.

(** [str(val)]. *)
Definition str (val : pyval) : string :=
  match val with
  | PyNone => "None"
  | PdNaT => "NaT"
  | PdNA => "<NA>"
  | PyBool b => Py.str_bool b
  | NpBool b => Py.str_bool b
  | PyInt i => Py.str_int i
  | NpInt i => Py.str_int i
  | PyFloat f => str_float f
  | NpFloat f => str_float f
  | PyDate d => date_isoformat d
  | PyDateTime d t => datetime_isoformat " " d t
  | PyStr s => s
  | PyObject text => text
  end.

(** [bool(val)], the truth value a conditional takes; the encoder asks
    for it of Python and NumPy booleans only. *)
Definition truth (val : pyval) : bool :=
  match val with
  | PyNone => false
  | PyBool b => b
  | NpBool b => b
  | PyInt i => negb (i =? 0)
  | NpInt i => negb (i =? 0)
  | PyFloat (FNum text) => negb (String.eqb text "0.0" || String.eqb text "-0.0")
  | NpFloat (FNum text) => negb (String.eqb text "0.0" || String.eqb text "-0.0")
  | PyStr s => negb (String.eqb s "")
  | _ => true
  end.

Definition float_isnan (f : pyfloat) : bool :=
  match f with
  | FNaN => true
  | FNum _ => false
  end.

(** [pd.isnull(val)] on a scalar: [None], [NaN], [NaT] and [NA]. *)
Definition pd_isnull (val : pyval) : bool :=
  match val with
  | PyNone | PdNaT | PdNA => true
  | PyFloat f | NpFloat f => float_isnan f
  | _ => false
  end.

(** ** The helper functions of [app.py] *)

(** [escape_mysql(val)]: a value that is not a [str] is first turned
    into its text, then come the five replacements, backslash first. *)
Definition escape_mysql (val : pyval) : string :=
  let val := match val with
             | PyStr s => s
             | _ => str val
             end in
  let val := Py.replace val "\" "\\" in
  let val := Py.replace val "'" "\'" in
  let val := Py.replace val (chr Chr.dquote) (String Chr.backslash (chr Chr.dquote)) in
  let val := Py.replace val (chr Chr.newline) "\n" in
  let val := Py.replace val (chr Chr.cr) "\r" in
  val.

(** [format_sql_value(val)], the tests in the order of the source. *)
Definition format_sql_value (val : pyval) : string :=
  if pd_isnull val then "NULL"
  else if isinstance val [T_date; T_datetime] then
    "'" +:+ isoformat val +:+ "'"
  else if isinstance val [T_int; T_float; T_np_integer; T_np_floating] then
    str val
  else if isinstance val [T_bool; T_np_bool] then
    if truth val then "TRUE" else "FALSE"
  else
    "'" +:+ escape_mysql val +:+ "'".

(** ** Tables

    A [DataFrame] as the generator sees it: the column labels and, for
    each row in the order of [iterrows], the cell values that iterating
    the row yields, in column order. *)

Record DataFrame := { columns : list string; rows : list (list pyval) }.

(** [len(df)]. *)
Definition len (df : DataFrame) : Z := Z.of_nat (length (rows df)).

(** [df.iloc[start:stop]]: the same columns, a slice of the rows. *)
Definition iloc (df : DataFrame) (start stop : Z) : DataFrame :=
  {| columns := columns df; rows := Py.slice (rows df) start stop |}.

Definition nl : string := chr Chr.newline.

(** The text that joins consecutive statements. *)
Definition separator : string :=
  nl +:+ nl +:+ "-- -- -- -- -- -- -- -- -- --" +:+ nl +:+ nl.

(** The inner loop of [generate_chunked_insert_queries]: one
    parenthesised tuple per row of the chunk, appended in row order. *)
Definition values_list_of (df_chunk : DataFrame) : list string :=
  fold_left
    (fun values_list row =>
       let values := Py.join ", " (map format_sql_value row) in
       (values_list ++ ["(" +:+ values +:+ ")"])%list)
    (rows df_chunk) [].

(** The body of the outer loop, from [queries] before the iteration at
    [start] to [queries] after it. *)
Definition chunk_step (df : DataFrame) (table_name : string) (chunk_size : Z)
    (columns insert_command : string) (queries : list string) (start : Z)
    : list string :=
  let stop := Z.min (start + chunk_size) (len df) in
  let df_chunk := iloc df start stop in
  let values_list := values_list_of df_chunk in
  match values_list with
  | [] => queries
  | _ :: _ =>
      let all_values := Py.join ("," +:+ nl +:+ "  ") values_list in
      let query :=
        insert_command +:+ " `" +:+ table_name +:+ "` (" +:+ columns
        +:+ ") VALUES" +:+ nl +:+ "  " +:+ all_values +:+ ";" in
      (queries ++ [query])%list
  end.

(** The list [queries] when the loop ends; [None] when [range] raises. *)
Definition insert_queries (df : DataFrame) (table_name : string)
    (chunk_size : Z) (use_ignore : bool) : option (list string) :=
  let queries := [] in
  let columns := Py.join ", " (map (fun col => "`" +:+ col +:+ "`") (columns df)) in
  let insert_command := if use_ignore then "INSERT IGNORE INTO" else "INSERT INTO" in
  match Py.range 0 (len df) chunk_size with
  | None => None
  | Some starts =>
      Some (fold_left (chunk_step df table_name chunk_size columns insert_command)
                      starts queries)
  end.

(** [generate_chunked_insert_queries(df, table_name, chunk_size, use_ignore)]. *)
Definition generate_chunked_insert_queries (df : DataFrame) (table_name : string)
    (chunk_size : Z) (use_ignore : bool) : option string :=
  match insert_queries df table_name chunk_size use_ignore with
  | None => None
  | Some queries => Some (Py.join separator queries)
  end.

(** The row slices the outer loop visits, one per [start]. *)
Definition df_chunks (df : DataFrame) (chunk_size : Z)
    : option (list (list (list pyval))) :=
  match Py.range 0 (len df) chunk_size with
  | None => None
  | Some starts =>
      Some (map (fun start =>
                   rows (iloc df start (Z.min (start + chunk_size) (len df))))
                starts)
  end.

(** ** The page script around the generator *)

(** The rename form: the dict [new_column_names] gets, for every column,
    what the text input of that column holds. *)
Definition collect_new_column_names (text_input : string -> string)
    (cols : list string) : gmap string string :=
  fold_left (fun new_column_names col => <[col := text_input col]> new_column_names)
            cols ∅.

(** [df.rename(columns=mapper)]: all labels are replaced at once, a
    label in the dict by its entry, any other label by itself; the rows
    are untouched. With a dict the call does not raise. *)
Definition new_name (mapper : gmap string string) (col : string) : string :=
  default col (mapper !! col).

Definition rename (df : DataFrame) (mapper : gmap string string) : DataFrame :=
  {| columns := map (new_name mapper) (columns df); rows := rows df |}.

(** The rename step with its uniqueness check; [None] is [st.stop()]
    after the error message, so that nothing is generated. *)
Definition renamed_df (df : DataFrame) (new_column_names : gmap string string)
    : option DataFrame :=
  let renamed := rename df new_column_names in
  if negb (size (list_to_set (columns renamed) : gset string)
           =? length (columns renamed))%nat
  then None
  else Some renamed.

(** The assembly of [final_query_output] in the submit handler. *)
Definition final_query_output (truncate_table : bool) (table_name : string)
    (generated_queries : string) : string :=
  let final_query_output := "" in
  let final_query_output :=
    if truncate_table
    then "TRUNCATE TABLE `" +:+ table_name +:+ "`;" +:+ nl +:+ nl
    else final_query_output in
  final_query_output +:+ generated_queries.

(** ** The specification's reading of the same operations *)

(** What one character becomes in a single left-to-right escaping pass. *)
Definition escape_char (c : ascii) : string :=
  if Ascii.eqb c Chr.backslash then "\\"
  else if Ascii.eqb c Chr.squote then "\'"
  else if Ascii.eqb c Chr.dquote then String Chr.backslash (chr Chr.dquote)
  else if Ascii.eqb c Chr.newline then "\n"
  else if Ascii.eqb c Chr.cr then "\r"
  else chr c.

(** Every character replaced by a string, left to right. *)
Fixpoint flat_map_chars (f : ascii -> string) (s : string) : string :=
  match s with
  | EmptyString => EmptyString
  | String c s' => f c +:+ flat_map_chars f s'
  end.

Definition escape_one_pass (s : string) : string :=
  flat_map_chars escape_char s.

(** What a replacement of the one-character pattern [old] does to [c]. *)
Definition subst_char (old : ascii) (new : string) (c : ascii) : string :=
  if Ascii.eqb c old then new else chr c.

(** Decoding of the documented escape sequences: backslash followed by
    backslash, quote or double quote stands for that character,
    backslash-n for a newline, backslash-r for a carriage return. A
    backslash before any other character, or at the end, is kept. *)
Fixpoint decode_escapes (s : string) : string :=
  match s with
  | EmptyString => EmptyString
  | String c s' =>
      if Ascii.eqb c Chr.backslash then
        match s' with
        | EmptyString => chr c
        | String e s'' =>
            if Ascii.eqb e Chr.backslash || Ascii.eqb e Chr.squote
               || Ascii.eqb e Chr.dquote
            then String e (decode_escapes s'')
            else if Ascii.eqb e Chr.n then String Chr.newline (decode_escapes s'')
            else if Ascii.eqb e Chr.r then String Chr.cr (decode_escapes s'')
            else String c (String e (decode_escapes s''))
        end
      else String c (decode_escapes s')
  end.

(** The five characters the escaping rewrites. *)
Definition special (c : ascii) : bool :=
  Ascii.eqb c Chr.backslash || Ascii.eqb c Chr.squote || Ascii.eqb c Chr.dquote
  || Ascii.eqb c Chr.newline || Ascii.eqb c Chr.cr.

Fixpoint has_special (s : string) : bool :=
  match s with
  | EmptyString => false
  | String c s' => special c || has_special s'
  end.

(** The statement for one chunk, as the specification words it. *)
Definition keyword (use_ignore : bool) : string :=
  if use_ignore then "INSERT IGNORE INTO" else "INSERT INTO".

Definition column_list (cols : list string) : string :=
  Py.join ", " (map (fun col => "`" +:+ col +:+ "`") cols).

Definition row_tuple (row : list pyval) : string :=
  "(" +:+ Py.join ", " (map format_sql_value row) +:+ ")".

Definition statement (use_ignore : bool) (table_name : string)
    (cols : list string) (chunk : list (list pyval)) : string :=
  keyword use_ignore +:+ " `" +:+ table_name +:+ "` (" +:+ column_list cols
  +:+ ") VALUES" +:+ nl +:+ "  "
  +:+ Py.join ("," +:+ nl +:+ "  ") (map row_tuple chunk) +:+ ";".

(** [ceil(r / c)] for a positive [c]. *)
Definition ceil_div (r c : Z) : Z := (r + c - 1) / c.

(** ** The page script from the upload to the preview

    The page is run from top to bottom. [st.error] and [st.warning]
    put a message on the page, [st.stop()] ends the run, an exception
    nobody catches ends it too. The parsers [pd.read_csv] and
    [pd.read_excel] are not part of the program: an upload carries what
    each of them makes of the file, a table or the text of the exception
    it raises. The widgets that only display are left out. *)

Inductive message :=
| Error (text : string)
| Warning (text : string).

Inductive read_result :=
| ReadRaises (e : string)
| ReadOk (df : DataFrame).

Record upload := { name : string; read_csv : read_result; read_excel : read_result }.

(** What is offered for download ([data] is the text whose UTF-8
    encoding is handed to the button) and what is shown. *)
Record script := { data : string; file_name : string; preview : string }.

(** How a part of the run ends. *)
Inductive run (A : Type) :=
| Continue (a : A)
| Stopped
| Raised.

Arguments Continue {A} a.
Arguments Stopped {A}.
Arguments Raised {A}.

(** A part of the run: the messages it puts on the page and how it ends. *)
Definition st (A : Type) : Type := list message * run A.

Definition st_ret {A} (a : A) : st A := ([], Continue a).

Definition st_bind {A B} (m : st A) (k : A -> st B) : st B :=
  match m with
  | (msgs, Continue a) => let (msgs', r) := k a in ((msgs ++ msgs')%list, r)
  | (msgs, Stopped) => (msgs, Stopped)
  | (msgs, Raised) => (msgs, Raised)
  end.

Notation "'perform' x <- m 'in' k" := (st_bind m (fun x => k))
  (at level 10, x name, m at level 100, k at level 200).

Definition st_error (text : string) : st unit := ([Error text], Continue tt).
Definition st_warning (text : string) : st unit := ([Warning text], Continue tt).
Definition st_stop {A} : st A := ([], Stopped).
Definition st_raise {A} : st A := ([], Raised).

(** [uploaded_file.name.split('.')[-1]]. *)
Definition file_type (name : string) : string :=
  List.last (Py.split name ".") "".

(** A call of a parser inside the [try] block: an exception is reported
    and stops the run. *)
Definition try_read (r : read_result) : st (option DataFrame) :=
  match r with
  | ReadOk df => st_ret (Some df)
  | ReadRaises e =>
      perform _ <- st_error ("Error reading file: " +:+ e) in st_stop
  end.

(** [df.empty]: no row or no column. *)
Definition df_empty (df : DataFrame) : bool :=
  match rows df, columns df with
  | [], _ => true
  | _, [] => true
  | _, _ => false
  end.

(** The loading of the upload, to the table the rest of the page uses. *)
Definition load (uploaded_file : upload) : st DataFrame :=
  let df := None in
  perform df <-
    (let file_type := file_type (name uploaded_file) in
     if String.eqb file_type "csv" then try_read (read_csv uploaded_file)
     else if String.eqb file_type "xlsx" || String.eqb file_type "xls"
     then try_read (read_excel uploaded_file)
     else
       perform _ <-
         st_error "Unsupported file type. Please upload a .csv, .xls, or .xlsx file." in
       st_ret df) in
  match df with
  | None =>
      perform _ <-
        st_error "Failed to load data. The file might be empty or corrupted." in
      st_stop
  | Some df =>
      if df_empty df
      then perform _ <- st_warning "The uploaded file is empty." in st_stop
      else st_ret df
  end.

(** The key of the text input the rename form makes for a column. A
    column label enters the page through its text only, in the key and
    in the statement header. *)
Definition widget_key (col : string) : string := "rename_" +:+ col.

(** The loop of the rename form, with the keys of the widgets made so
    far and the dict built so far: a text input whose key is already on
    the page raises, outside any [try]; otherwise the dict gets, for the
    column, what its text input holds. *)
Fixpoint rename_form (text_input : string -> string) (cols : list string)
    (keys : gset string) (new_column_names : gmap string string)
    : st (gmap string string) :=
  match cols with
  | [] => st_ret new_column_names
  | col :: cols' =>
      if decide (widget_key col ∈ keys) then st_raise
      else rename_form text_input cols' ({[widget_key col]} ∪ keys)
                       (<[col := text_input col]> new_column_names)
  end.

(** The rename form and the check of the new names. *)
Definition rename_step (text_input : string -> string) (df : DataFrame)
    : st DataFrame :=
  perform new_column_names <- rename_form text_input (columns df) ∅ ∅ in
  match renamed_df df new_column_names with
  | None =>
      perform _ <-
        st_error "Error: New column names are not unique. Please fix the duplicates." in
      st_stop
  | Some renamed => st_ret renamed
  end.

Definition preview_limit : Z := 5000.

(** The preview of the output: its first characters, and a notice when
    some were cut. *)
Definition preview_of (final_query_output : string) : string :=
  let preview := Py.str_slice final_query_output 0 preview_limit in
  if preview_limit <? Py.str_len final_query_output
  then preview +:+ nl +:+ nl +:+ "... (preview truncated) ..."
  else preview.

(** What the page does with the form when it is run. *)
Definition submit (renamed : DataFrame) (submitted : bool) (table_name : string)
    (chunk_size : Z) (use_ignore truncate_table : bool) : st (option script) :=
  if submitted && Py.str_truth table_name then
    if negb (Py.str_truth (Py.strip table_name)) then
      perform _ <- st_warning "Please enter a table name." in st_ret None
    else
      match generate_chunked_insert_queries renamed table_name chunk_size use_ignore with
      | None => st_raise
      | Some generated_queries =>
          perform _ <-
            (if truncate_table
             then st_warning "The script includes `TRUNCATE TABLE` and will delete all existing data before inserting."
             else st_ret tt) in
          let final := final_query_output truncate_table table_name generated_queries in
          st_ret (Some {| data := final;
                          file_name := table_name +:+ "_batch_insert.sql";
                          preview := preview_of final |})
      end
  else st_ret None.

(** The page: without an upload nothing is run. [chunk_size] is what
    the number input returns; the widget is made with [min_value=1] and
    returns no number below one. *)
Definition page (uploaded_file : option upload) (text_input : string -> string)
    (submitted : bool) (table_name : string) (chunk_size : Z)
    (use_ignore truncate_table : bool) : st (option script) :=
  match uploaded_file with
  | None => st_ret None
  | Some uploaded_file =>
      perform df <- load uploaded_file in
      perform renamed <- rename_step text_input df in
      submit renamed submitted table_name chunk_size use_ignore truncate_table
  end.

(** ** Readings used to state what the encoder guarantees *)

(** A text in which every backslash opens one of the five escape
    sequences and no quote, double quote, newline or carriage return
    stands on its own. *)
Fixpoint well_escaped (s : string) : bool :=
  match s with
  | EmptyString => true
  | String c s' =>
      if Ascii.eqb c Chr.backslash then
        match s' with
        | EmptyString => false
        | String e s'' =>
            (Ascii.eqb e Chr.backslash || Ascii.eqb e Chr.squote
             || Ascii.eqb e Chr.dquote || Ascii.eqb e Chr.n || Ascii.eqb e Chr.r)
            && well_escaped s''
        end
      else negb (special c) && well_escaped s'
  end.

(** The number of characters of a text that the escaping rewrites. *)
Fixpoint count_special (s : string) : nat :=
  match s with
  | EmptyString => O
  | String c s' => ((if special c then 1 else 0) + count_special s')%nat
  end.

(** [c in s] for a character. *)
Fixpoint occurs (c : ascii) (s : string) : bool :=
  match s with
  | EmptyString => false
  | String x s' => Ascii.eqb x c || occurs c s'
  end.

(** A text made of whitespace only, the empty text included. *)
Fixpoint all_space (s : string) : bool :=
  match s with
  | EmptyString => true
  | String c s' => Py.isspace c && all_space s'
  end.

(** The integer a decimal literal stands for. *)
Definition int_of_literal (s : string) : option Z :=
  option_map Z.of_int (NilZero.int_of_string s).

(** ** Definitions used by the proofs *)

(** The five replacements of [escape_mysql], one after the other, on a
    single character. *)
Definition five_steps (c : ascii) : string :=
  flat_map_chars (subst_char Chr.cr "\r")
    (flat_map_chars (subst_char Chr.newline "\n")
      (flat_map_chars (subst_char Chr.dquote (String Chr.backslash (chr Chr.dquote)))
        (flat_map_chars (subst_char Chr.squote "\'")
          (subst_char Chr.backslash "\\" c)))).

(** The chunks of a table for a chunk size of at least one: [ceil(R / C)]
    slices of [C] rows, the last one with what remains. *)
Definition chunks_of (df : DataFrame) (chunk_size : Z) : list (list (list pyval)) :=
  map (fun i : nat =>
         take (Z.to_nat chunk_size) (drop (i * Z.to_nat chunk_size) (rows df)))
      (seq 0 (Z.to_nat (ceil_div (len df) chunk_size))).

(** The table of the specification's example, with a third row. *)
Definition sample_df : DataFrame :=
  {| columns := ["id"; "name"; "joined"];
     rows := [ [PyInt 1; PyStr "O'Brien"; PyDate {| year := 2024; month := 1; day := 5 |}];
               [PyInt 2; PyNone; PyDate {| year := 2024; month := 2; day := 1 |}];
               [PyInt 3; PyStr "Li"; PyFloat FNaN] ] |}.

(** * Properties *)

(** ** The built-ins on concrete inputs *)

Example replace_abc : Py.replace "a'b'c" "'" "\'" = "a\'b\'c".
Proof. reflexivity. Qed.

Example replace_multi : Py.replace "xabab-ab" "ab" "Q" = "xQQ-Q".
Proof. reflexivity. Qed.

Example replace_overlap : Py.replace "aaa" "aa" "b" = "ba".
Proof. reflexivity. Qed.

Example replace_empty_pattern : Py.replace "abc" "" "-" = "-a-b-c-".
Proof. reflexivity. Qed.

Example range_0_7_3 : Py.range 0 7 3 = Some [0; 3; 6].
Proof. reflexivity. Qed.

Example range_zero_step : Py.range 0 7 0 = None.
Proof. reflexivity. Qed.

Example range_negative_step : Py.range 0 7 (-2) = Some [].
Proof. reflexivity. Qed.

Example slice_2_5 : Py.slice [10; 11; 12; 13] 2 5 = [12; 13].
Proof. reflexivity. Qed.

Example zero_pad_4 : Py.zero_pad 4 33 = "0033".
Proof. reflexivity. Qed.

Example isinstance_bool_int : isinstance (PyBool true) [T_int] = true.
Proof. reflexivity. Qed.

Example isinstance_np_bool_int :
  isinstance (NpBool true) [T_int; T_float; T_np_integer; T_np_floating] = false.
Proof. reflexivity. Qed.

Example isinstance_datetime_date : isinstance (PyDateTime
  {| year := 2024; month := 1; day := 5 |}
  {| hour := 0; minute := 0; second := 0; microsecond := 0 |}) [T_date] = true.
Proof. reflexivity. Qed.

Example escape_obrien : escape_mysql (PyStr "O'Brien") = "O\'Brien".
Proof. reflexivity. Qed.
(** ** Strings *)

Lemma str_app_cons (c : ascii) (s t : string) : String c s +:+ t = String c (s +:+ t).
Proof. reflexivity. Qed.

Lemma str_app_empty_l (s : string) : "" +:+ s = s.
Proof. reflexivity. Qed.

Lemma str_app_empty_r (s : string) : s +:+ "" = s.
Proof.
  induction s as [|c s IH]; [reflexivity |].
  now rewrite str_app_cons, IH.
Qed.

Lemma str_app_assoc (a b c : string) : (a +:+ b) +:+ c = a +:+ (b +:+ c).
Proof.
  induction a as [|x a IH]; [reflexivity |].
  now rewrite !str_app_cons, IH.
Qed.

Lemma flat_map_chars_app f (a b : string) :
  flat_map_chars f (a +:+ b) = flat_map_chars f a +:+ flat_map_chars f b.
Proof.
  induction a as [|x a IH]; [reflexivity |].
  rewrite str_app_cons. simpl. now rewrite IH, str_app_assoc.
Qed.

Lemma flat_map_chars_ext f g (s : string) :
  (forall c, f c = g c) -> flat_map_chars f s = flat_map_chars g s.
Proof.
  intros E. induction s as [|x s IH]; simpl; [reflexivity |].
  now rewrite E, IH.
Qed.

(** A one-character pattern: [replace] rewrites every character on its own. *)
Lemma replace_one_char (s : string) (old : ascii) (new : string) :
  Py.replace s (chr old) new = flat_map_chars (subst_char old new) s.
Proof.
  unfold Py.replace, chr.
  induction s as [|c s IH]; [reflexivity |].
  cbn [Py.replace_from flat_map_chars String.prefix String.length Nat.pred].
  unfold subst_char at 1.
  destruct (ascii_dec old c) as [->|Hne].
  - rewrite Ascii.eqb_refl. destruct s; now rewrite IH.
  - destruct (Ascii.eqb_spec c old) as [->|_]; [congruence |].
    now rewrite IH.
Qed.

Lemma flat_map_subst_other (old c : ascii) (new : string) :
  c <> old -> flat_map_chars (subst_char old new) (chr c) = chr c.
Proof.
  intros Hne. apply Ascii.eqb_neq in Hne.
  unfold chr, subst_char. cbn [flat_map_chars]. now rewrite Hne.
Qed.


Lemma five_steps_escape_char (c : ascii) : five_steps c = escape_char c.
Proof.
  unfold five_steps, escape_char, subst_char at 5.
  destruct (Ascii.eqb_spec c Chr.backslash) as [->|H1]; [reflexivity |].
  destruct (Ascii.eqb_spec c Chr.squote) as [->|H2]; [reflexivity |].
  destruct (Ascii.eqb_spec c Chr.dquote) as [->|H3]; [reflexivity |].
  destruct (Ascii.eqb_spec c Chr.newline) as [->|H4]; [reflexivity |].
  destruct (Ascii.eqb_spec c Chr.cr) as [->|H5]; [reflexivity |].
  now rewrite !flat_map_subst_other.
Qed.

Lemma escape_text_one_pass (s : string) :
  Py.replace
    (Py.replace
       (Py.replace
          (Py.replace (Py.replace s "\" "\\") "'" "\'")
          (chr Chr.dquote) (String Chr.backslash (chr Chr.dquote)))
       (chr Chr.newline) "\n")
    (chr Chr.cr) "\r"
  = escape_one_pass s.
Proof.
  change "\" with (chr Chr.backslash) at 1.
  change "'" with (chr Chr.squote) at 1.
  rewrite !replace_one_char. unfold escape_one_pass.
  rewrite <- (flat_map_chars_ext five_steps escape_char s five_steps_escape_char).
  induction s as [|c s IH]; [reflexivity |].
  cbn [flat_map_chars]. now rewrite !flat_map_chars_app, IH.
Qed.

Lemma escape_mysql_one_pass (val : pyval) :
  escape_mysql val = escape_one_pass (str val).
Proof.
  unfold escape_mysql. rewrite escape_text_one_pass. now destruct val.
Qed.

Lemma special_false_escape_char (c : ascii) :
  special c = false -> escape_char c = chr c.
Proof.
  unfold special, escape_char. intros H.
  repeat (apply orb_false_elim in H; destruct H as [H ?]).
  repeat match goal with E : _ = false |- _ => rewrite E; clear E end.
  reflexivity.
Qed.

Lemma one_pass_identity (s : string) :
  has_special s = false -> escape_one_pass s = s.
Proof.
  unfold escape_one_pass.
  induction s as [|c s IH]; [reflexivity |].
  cbn [has_special flat_map_chars]. intros H.
  apply orb_false_elim in H. destruct H as [Hc Hs].
  now rewrite (special_false_escape_char c Hc), (IH Hs).
Qed.

Lemma decode_escape_char (c : ascii) (rest : string) :
  decode_escapes (escape_char c +:+ rest) = String c (decode_escapes rest).
Proof.
  unfold escape_char.
  destruct (Ascii.eqb_spec c Chr.backslash) as [->|H1]; [reflexivity |].
  destruct (Ascii.eqb_spec c Chr.squote) as [->|H2]; [reflexivity |].
  destruct (Ascii.eqb_spec c Chr.dquote) as [->|H3]; [reflexivity |].
  destruct (Ascii.eqb_spec c Chr.newline) as [->|H4]; [reflexivity |].
  destruct (Ascii.eqb_spec c Chr.cr) as [->|H5]; [reflexivity |].
  unfold chr. rewrite str_app_cons, str_app_empty_l. cbn [decode_escapes].
  apply Ascii.eqb_neq in H1. now rewrite H1.
Qed.

Lemma decode_one_pass (s : string) : decode_escapes (escape_one_pass s) = s.
Proof.
  unfold escape_one_pass.
  induction s as [|c s IH]; [reflexivity |].
  cbn [flat_map_chars]. now rewrite decode_escape_char, IH.
Qed.

(** ** The escaping function *)

(** C5. For every input, [escape_mysql] is the five replacements in the
    order backslash, single quote, double quote, newline, carriage
    return, applied to the text of the input, and their composition is
    one left-to-right pass that rewrites each original character once:
    no step touches what an earlier step wrote. *)
Theorem escape_mysql_five_steps_single_pass (val : pyval) :
  escape_mysql val
  = Py.replace
      (Py.replace
         (Py.replace
            (Py.replace (Py.replace (str val) "\" "\\") "'" "\'")
            (chr Chr.dquote) (String Chr.backslash (chr Chr.dquote)))
         (chr Chr.newline) "\n")
      (chr Chr.cr) "\r"
  /\ escape_mysql val = escape_one_pass (str val).
Proof.
  split; [now destruct val | apply escape_mysql_one_pass].
Qed.

(** C10. On a string with none of backslash, single quote, double quote,
    newline and carriage return, [escape_mysql] is the identity. *)
Theorem escape_mysql_identity_without_specials (s : string) :
  has_special s = false -> escape_mysql (PyStr s) = s.
Proof.
  intros H. rewrite escape_mysql_one_pass. now apply one_pass_identity.
Qed.

Lemma escape_mysql_identity_without_specials_witness :
  has_special "plain text 42" = false
  /\ escape_mysql (PyStr "plain text 42") = "plain text 42".
Proof.
  split; [reflexivity |].
  apply (escape_mysql_identity_without_specials "plain text 42"). reflexivity.
Defined.

(** C2. A text value that contains a backslash, a quote, a double quote,
    a newline or a carriage return is encoded as a single-quoted string;
    decoding the escape sequences of its content gives the original text
    back, so that two texts with the same encoding are equal. *)
Theorem text_literal_round_trip (s : string) :
  has_special s = true ->
  format_sql_value (PyStr s) = "'" +:+ escape_mysql (PyStr s) +:+ "'"
  /\ decode_escapes (escape_mysql (PyStr s)) = s
  /\ (forall t : string, escape_mysql (PyStr t) = escape_mysql (PyStr s) -> t = s).
Proof.
  intros _. split; [reflexivity |]. split.
  - rewrite escape_mysql_one_pass. apply decode_one_pass.
  - intros t E. apply (f_equal decode_escapes) in E.
    now rewrite !escape_mysql_one_pass, !decode_one_pass in E.
Qed.

Lemma text_literal_round_trip_witness :
  has_special "O'Brien \ co" = true
  /\ format_sql_value (PyStr "O'Brien \ co") = "'O\'Brien \\ co'"
  /\ decode_escapes "O\'Brien \\ co" = "O'Brien \ co".
Proof.
  split; [reflexivity |].
  destruct (text_literal_round_trip "O'Brien \ co" eq_refl) as (Hq & Hd & _).
  split; [exact Hq | exact Hd].
Defined.

(** ** The value encoder *)

(** A Python [bool] passes the numeric test, a NumPy one does not. *)
Lemma bool_is_numeric (b : bool) :
  isinstance (PyBool b) [T_int; T_float; T_np_integer; T_np_floating] = true
  /\ isinstance (NpBool b) [T_int; T_float; T_np_integer; T_np_floating] = false.
Proof. split; reflexivity. Qed.

(** C1. The numeric test comes before the boolean one and a Python
    [bool] is an [int]: it leaves through the numeric branch as the text
    [str] gives, [True] or [False], not as [TRUE] or [FALSE]. Only a
    NumPy boolean reaches the boolean branch. *)
Theorem python_bool_takes_numeric_branch :
  format_sql_value (PyBool true) = "True"
  /\ format_sql_value (PyBool false) = "False"
  /\ format_sql_value (PyBool true) <> "TRUE"
  /\ format_sql_value (PyBool false) <> "FALSE"
  /\ format_sql_value (NpBool true) = "TRUE"
  /\ format_sql_value (NpBool false) = "FALSE".
Proof. repeat split; try reflexivity; discriminate. Qed.

(** C6. Every value that [pd.isnull] recognises ([None], [NaT], [NA],
    a NaN float) is encoded as the four characters [NULL], without
    quotes. *)
Theorem null_value_is_NULL (val : pyval) :
  pd_isnull val = true -> format_sql_value val = "NULL".
Proof. unfold format_sql_value. now intros ->. Qed.

Lemma null_value_is_NULL_witness :
  pd_isnull PyNone = true /\ format_sql_value PyNone = "NULL".
Proof.
  split; [reflexivity |]. apply (null_value_is_NULL PyNone). reflexivity.
Defined.

(** C9. A NaN, of the Python or of the NumPy float type, is caught by
    the null test that opens the encoder and becomes [NULL]; the numeric
    branch, where it would print as [nan], is not reached. *)
Theorem nan_is_NULL (f : pyfloat) :
  float_isnan f = true ->
  format_sql_value (PyFloat f) = "NULL" /\ format_sql_value (NpFloat f) = "NULL"
  /\ str (PyFloat f) = "nan" /\ str (NpFloat f) = "nan".
Proof. destruct f; [now repeat split | discriminate]. Qed.

Lemma nan_is_NULL_witness :
  float_isnan FNaN = true
  /\ format_sql_value (PyFloat FNaN) = "NULL"
  /\ format_sql_value (NpFloat FNaN) = "NULL".
Proof.
  split; [reflexivity |].
  destruct (nan_is_NULL FNaN eq_refl) as (Hpy & Hnp & _).
  split; [exact Hpy | exact Hnp].
Defined.

(** ** Lists cut into chunks *)

Lemma fold_left_append {A B : Type} (f : A -> B) (l : list A) (acc : list B) :
  fold_left (fun acc x => (acc ++ [f x])%list) l acc = (acc ++ map f l)%list.
Proof.
  revert acc. induction l as [|x l IH]; intros acc; cbn [fold_left map].
  - now rewrite app_nil_r.
  - now rewrite IH, <- List.app_assoc.
Qed.

Lemma concat_chunks {A : Type} (c n : nat) (l : list A) :
  (length l <= n * c)%nat ->
  concat (map (fun i : nat => take c (drop (i * c) l)) (seq 0 n)) = l.
Proof.
  revert l. induction n as [|n IH]; intros l Hlen.
  - destruct l; [reflexivity | cbn in Hlen; lia].
  - cbn [seq map concat]. rewrite <- seq_shift, map_map.
    rewrite (map_ext _ (fun i : nat => take c (drop (i * c) (drop c l)))).
    + rewrite IH; [apply take_drop |]. rewrite length_drop. lia.
    + intros i. rewrite drop_drop. do 2 f_equal.
Qed.

Lemma ceil_div_bounds (r c : Z) :
  0 <= r -> 1 <= c ->
  0 <= ceil_div r c /\ r <= ceil_div r c * c
  /\ (forall i, 0 <= i < ceil_div r c -> i * c < r).
Proof.
  intros Hr Hc. unfold ceil_div.
  pose proof (Z.div_mod (r + c - 1) c ltac:(lia)) as E.
  pose proof (Z.mod_pos_bound (r + c - 1) c ltac:(lia)) as B.
  set (q := (r + c - 1) / c) in *.
  repeat split; [nia | nia |]. intros i Hi. nia.
Qed.

Lemma range_length_ceil_div (r c : Z) :
  0 <= r -> 1 <= c -> Py.range_length 0 r c = ceil_div r c.
Proof.
  intros Hr Hc. unfold Py.range_length, ceil_div.
  destruct (Z.ltb_spec 0 c); [| lia].
  destruct (Z.ltb_spec 0 r).
  - replace (r + c - 1) with (r - 0 - 1 + 1 * c) by lia.
    rewrite Z.div_add by lia. reflexivity.
  - replace r with 0 by lia. symmetry. apply Z.div_small. lia.
Qed.

Lemma range_starts (r c : Z) :
  0 <= r -> 1 <= c ->
  Py.range 0 r c
  = Some (map (fun i : nat => Z.of_nat i * c) (seq 0 (Z.to_nat (ceil_div r c)))).
Proof.
  intros Hr Hc. unfold Py.range.
  destruct (Z.eqb_spec c 0); [lia |].
  now rewrite range_length_ceil_div.
Qed.

Lemma slice_chunk {A : Type} (l : list A) (i : nat) (c : Z) :
  1 <= c -> Z.of_nat i * c < Z.of_nat (length l) ->
  Py.slice l (Z.of_nat i * c) (Z.min (Z.of_nat i * c + c) (Z.of_nat (length l)))
  = take (Z.to_nat c) (drop (i * Z.to_nat c) l).
Proof.
  intros Hc Hlt. unfold Py.slice, Py.clamp.
  destruct (Z.ltb_spec (Z.of_nat i * c) 0); [lia |].
  destruct (Z.ltb_spec (Z.min (Z.of_nat i * c + c) (Z.of_nat (length l))) 0); [lia |].
  replace (Z.to_nat (Z.min (Z.of_nat i * c) (Z.of_nat (length l))))
    with (i * Z.to_nat c)%nat by lia.
  destruct (Z.le_ge_cases (Z.of_nat i * c + c) (Z.of_nat (length l))) as [Hle | Hge].
  - f_equal. lia.
  - rewrite (take_ge _ (Z.to_nat c)) by (rewrite length_drop; lia).
    apply take_ge. rewrite length_drop. lia.
Qed.

Lemma chunk_nonempty {A : Type} (l : list A) (i c : nat) :
  (1 <= c)%nat -> (i * c < length l)%nat -> take c (drop (i * c) l) <> [].
Proof.
  intros Hc Hlt E. apply (f_equal (@length A)) in E.
  rewrite length_take, length_drop in E. cbn in E. lia.
Qed.

(** ** The batch generator *)

Lemma values_list_of_chunk (df_chunk : DataFrame) :
  values_list_of df_chunk = map row_tuple (rows df_chunk).
Proof. unfold values_list_of. now rewrite fold_left_append. Qed.

(** A chunk with rows appends exactly the statement of its rows. *)
Lemma chunk_step_statement (df : DataFrame) (table_name : string)
    (chunk_size : Z) (use_ignore : bool) (queries : list string) (start : Z) :
  let chunk := rows (iloc df start (Z.min (start + chunk_size) (len df))) in
  chunk <> [] ->
  chunk_step df table_name chunk_size (column_list (columns df))
             (keyword use_ignore) queries start
  = (queries ++ [statement use_ignore table_name (columns df) chunk])%list.
Proof.
  intros chunk Hne. unfold chunk_step. rewrite values_list_of_chunk.
  fold chunk. destruct chunk as [|row chunk]; [congruence | reflexivity].
Qed.

Lemma fold_chunk_step (df : DataFrame) (table_name : string) (chunk_size : Z)
    (use_ignore : bool) (starts : list Z) (queries : list string) :
  Forall (fun start =>
            rows (iloc df start (Z.min (start + chunk_size) (len df))) <> [])
         starts ->
  fold_left (chunk_step df table_name chunk_size (column_list (columns df))
                        (keyword use_ignore)) starts queries
  = (queries
     ++ map (fun start =>
               statement use_ignore table_name (columns df)
                 (rows (iloc df start (Z.min (start + chunk_size) (len df)))))
            starts)%list.
Proof.
  intros Hall. revert queries.
  induction Hall as [|start starts Hne _ IH]; intros queries; cbn [fold_left map].
  - now rewrite app_nil_r.
  - rewrite chunk_step_statement by exact Hne.
    now rewrite IH, <- List.app_assoc.
Qed.


Lemma index_in_range (df : DataFrame) (chunk_size : Z) (i : nat) :
  1 <= chunk_size -> In i (seq 0 (Z.to_nat (ceil_div (len df) chunk_size))) ->
  Z.of_nat i * chunk_size < len df.
Proof.
  intros Hc Hin. apply in_seq in Hin.
  destruct (ceil_div_bounds (len df) chunk_size) as (_ & _ & Hlt);
    [unfold len; lia | exact Hc |].
  apply Hlt. lia.
Qed.

Lemma df_chunks_eq (df : DataFrame) (chunk_size : Z) :
  1 <= chunk_size -> df_chunks df chunk_size = Some (chunks_of df chunk_size).
Proof.
  intros Hc. unfold df_chunks, chunks_of.
  rewrite range_starts by (unfold len; lia). f_equal.
  rewrite map_map. apply map_ext_in. intros i Hin.
  cbn [iloc rows]. apply slice_chunk; [exact Hc |].
  now apply index_in_range.
Qed.

Lemma chunks_of_nonempty (df : DataFrame) (chunk_size : Z) :
  1 <= chunk_size -> Forall (fun chunk => chunk <> []) (chunks_of df chunk_size).
Proof.
  intros Hc. unfold chunks_of. apply List.Forall_forall. intros chunk Hin.
  apply in_map_iff in Hin. destruct Hin as (i & <- & Hin).
  pose proof (index_in_range df chunk_size i Hc Hin) as Hlt. unfold len in Hlt.
  apply chunk_nonempty; nia.
Qed.

Lemma insert_queries_eq (df : DataFrame) (table_name : string)
    (chunk_size : Z) (use_ignore : bool) :
  1 <= chunk_size ->
  insert_queries df table_name chunk_size use_ignore
  = Some (map (statement use_ignore table_name (columns df))
              (chunks_of df chunk_size)).
Proof.
  intros Hc. unfold insert_queries.
  rewrite range_starts by (unfold len; lia). f_equal.
  change (Py.join ", " (map (fun col => "`" +:+ col +:+ "`") (columns df)))
    with (column_list (columns df)).
  change (if use_ignore then "INSERT IGNORE INTO" else "INSERT INTO")
    with (keyword use_ignore).
  assert (Hslice : forall i : nat,
    In i (seq 0 (Z.to_nat (ceil_div (len df) chunk_size))) ->
    rows (iloc df (Z.of_nat i * chunk_size)
               (Z.min (Z.of_nat i * chunk_size + chunk_size) (len df)))
    = take (Z.to_nat chunk_size) (drop (i * Z.to_nat chunk_size) (rows df))).
  { intros i Hin. cbn [iloc rows]. apply slice_chunk; [exact Hc |].
    now apply index_in_range. }
  rewrite fold_chunk_step.
  - cbn [app]. unfold chunks_of. rewrite !map_map.
    apply map_ext_in. intros i Hin. now rewrite Hslice.
  - apply List.Forall_forall. intros start Hin.
    apply in_map_iff in Hin. destruct Hin as (i & <- & Hin).
    rewrite Hslice by exact Hin.
    pose proof (index_in_range df chunk_size i Hc Hin) as Hlt. unfold len in Hlt.
    apply chunk_nonempty; nia.
Qed.

Lemma concat_chunks_of (df : DataFrame) (chunk_size : Z) :
  1 <= chunk_size -> concat (chunks_of df chunk_size) = rows df.
Proof.
  intros Hc. unfold chunks_of. apply concat_chunks.
  destruct (ceil_div_bounds (len df) chunk_size) as (H0 & Hle & _);
    [unfold len; lia | exact Hc |].
  unfold len in *. nia.
Qed.

Lemma length_chunks_of (df : DataFrame) (chunk_size : Z) :
  1 <= chunk_size ->
  Z.of_nat (length (chunks_of df chunk_size)) = ceil_div (len df) chunk_size.
Proof.
  intros Hc. unfold chunks_of. rewrite length_map, length_seq.
  destruct (ceil_div_bounds (len df) chunk_size) as (H0 & _);
    [unfold len; lia | exact Hc |]. lia.
Qed.

Lemma chunks_of_bounded (df : DataFrame) (chunk_size : Z) :
  Forall (fun chunk => Z.of_nat (length chunk) <= Z.max chunk_size 0)
         (chunks_of df chunk_size).
Proof.
  unfold chunks_of. apply List.Forall_forall. intros chunk Hin.
  apply in_map_iff in Hin. destruct Hin as (i & <- & _).
  rewrite length_take. lia.
Qed.


(** A chunk size of zero makes [range] raise: nothing is returned. *)
Lemma zero_chunk_size_raises (df : DataFrame) (table_name : string)
    (use_ignore : bool) :
  generate_chunked_insert_queries df table_name 0 use_ignore = None.
Proof. reflexivity. Qed.

(** C3. For a table of [R] rows and a chunk size [C] of at least one,
    the generator emits one statement per chunk and [ceil(R / C)]
    statements in all, none when the table has no row, the output being
    then the empty string; the chunks, put end to end in the order of
    their statements, are the rows of the table in their order, and so
    are their tuples. *)
Theorem chunk_count_and_row_order (df : DataFrame) (table_name : string)
    (chunk_size : Z) (use_ignore : bool) :
  1 <= chunk_size ->
  exists (chunks : list (list (list pyval))) (queries : list string),
    df_chunks df chunk_size = Some chunks
    /\ insert_queries df table_name chunk_size use_ignore = Some queries
    /\ generate_chunked_insert_queries df table_name chunk_size use_ignore
       = Some (Py.join separator queries)
    /\ queries = map (statement use_ignore table_name (columns df)) chunks
    /\ Z.of_nat (length queries) = ceil_div (len df) chunk_size
    /\ concat chunks = rows df
    /\ concat (map (map row_tuple) chunks) = map row_tuple (rows df)
    /\ (len df = 0 ->
        queries = []
        /\ generate_chunked_insert_queries df table_name chunk_size use_ignore
           = Some "").
Proof.
  intros Hc.
  exists (chunks_of df chunk_size),
         (map (statement use_ignore table_name (columns df)) (chunks_of df chunk_size)).
  pose proof (insert_queries_eq df table_name chunk_size use_ignore Hc) as Hq.
  pose proof (length_chunks_of df chunk_size Hc) as Hn.
  split; [now apply df_chunks_eq |].
  split; [exact Hq |].
  split; [unfold generate_chunked_insert_queries; now rewrite Hq |].
  split; [reflexivity |].
  split; [now rewrite length_map |].
  split; [now apply concat_chunks_of |].
  split; [rewrite <- concat_map; f_equal; now apply concat_chunks_of |].
  intros Hzero. unfold generate_chunked_insert_queries. rewrite Hq.
  assert (E : chunks_of df chunk_size = []).
  { apply length_zero_iff_nil. rewrite Hzero in Hn.
    unfold ceil_div in Hn. rewrite Z.div_small in Hn by lia. lia. }
  now rewrite E.
Qed.

Lemma chunk_count_and_row_order_witness :
  1 <= 2
  /\ exists queries : list string,
       insert_queries sample_df "users" 2 false = Some queries
       /\ Z.of_nat (length queries) = 2.
Proof.
  split; [lia |].
  destruct (chunk_count_and_row_order sample_df "users" 2 false ltac:(lia))
    as (chunks & queries & _ & Hq & _ & _ & Hn & _).
  exists queries. split; [exact Hq | exact Hn].
Defined.

(** C4. For a table with rows, the output is the statements of the
    chunks joined by a blank line, the comment rule and a blank line;
    the statement of a chunk is the keyword ([INSERT IGNORE INTO] with
    the ignore flag, [INSERT INTO] without), the table name in
    backticks, the backtick-quoted column names joined by comma and
    space in parentheses, the same in every statement, [VALUES], a new
    line and two spaces, the tuples of the rows of the chunk joined by
    comma, new line and two spaces, and a semicolon; the tuple of a row
    is its encoded values in column order, joined by comma and space, in
    parentheses. *)
Theorem statement_shape (df : DataFrame) (table_name : string)
    (chunk_size : Z) (use_ignore : bool) :
  1 <= chunk_size -> rows df <> [] ->
  exists chunks : list (list (list pyval)),
    df_chunks df chunk_size = Some chunks
    /\ chunks <> []
    /\ Forall (fun chunk => chunk <> []) chunks
    /\ generate_chunked_insert_queries df table_name chunk_size use_ignore
       = Some
           (Py.join
              (nl +:+ nl +:+ "-- -- -- -- -- -- -- -- -- --" +:+ nl +:+ nl)
              (map
                 (fun chunk =>
                    (if use_ignore then "INSERT IGNORE INTO" else "INSERT INTO")
                    +:+ " `" +:+ table_name +:+ "` ("
                    +:+ Py.join ", " (map (fun col => "`" +:+ col +:+ "`") (columns df))
                    +:+ ") VALUES" +:+ nl +:+ "  "
                    +:+ Py.join ("," +:+ nl +:+ "  ")
                          (map
                             (fun row =>
                                "(" +:+ Py.join ", " (map format_sql_value row) +:+ ")")
                             chunk)
                    +:+ ";")
                 chunks)).
Proof.
  intros Hc Hrows. exists (chunks_of df chunk_size).
  split; [now apply df_chunks_eq |].
  split.
  - intros E. apply Hrows. rewrite <- (concat_chunks_of df chunk_size Hc).
    now rewrite E.
  - split; [now apply chunks_of_nonempty |].
    unfold generate_chunked_insert_queries.
    now rewrite insert_queries_eq.
Qed.

Lemma statement_shape_witness :
  1 <= 2 /\ rows sample_df <> []
  /\ generate_chunked_insert_queries sample_df "users" 2 true
     = Some
         ("INSERT IGNORE INTO `users` (`id`, `name`, `joined`) VALUES" +:+ nl
          +:+ "  (1, 'O\'Brien', '2024-01-05')," +:+ nl
          +:+ "  (2, NULL, '2024-02-01');" +:+ nl +:+ nl
          +:+ "-- -- -- -- -- -- -- -- -- --" +:+ nl +:+ nl
          +:+ "INSERT IGNORE INTO `users` (`id`, `name`, `joined`) VALUES" +:+ nl
          +:+ "  (3, 'Li', NULL);").
Proof.
  split; [lia |]. split; [discriminate |].
  destruct (statement_shape sample_df "users" 2 true ltac:(lia) ltac:(discriminate))
    as (chunks & Hchunks & _ & _ & Hgen).
  rewrite Hgen. vm_compute in Hchunks. injection Hchunks as <-. reflexivity.
Defined.

(** ** The rename step *)

Lemma size_list_to_set_le (l : list string) :
  (size (list_to_set l : gset string) <= length l)%nat.
Proof.
  induction l as [|x l IH]; cbn [list_to_set length foldr].
  - now rewrite size_empty.
  - destruct (decide (x ∈ (list_to_set l : gset string))) as [Hin | Hnin].
    + assert (E : ({[x]} ∪ list_to_set l : gset string) = list_to_set l)
        by (now apply subseteq_union_1_L, singleton_subseteq_l).
      rewrite E. lia.
    + rewrite size_union by set_solver. rewrite size_singleton. lia.
Qed.

(** [len(set(l)) == len(l)] exactly when [l] has no repeated label. *)
Lemma size_list_to_set_NoDup (l : list string) :
  size (list_to_set l : gset string) = length l <-> NoDup l.
Proof.
  split; [| apply size_list_to_set].
  induction l as [|x l IH]; cbn [list_to_set length foldr]; intros E.
  - constructor.
  - destruct (decide (x ∈ (list_to_set l : gset string))) as [Hin | Hnin].
    + assert (E' : ({[x]} ∪ list_to_set l : gset string) = list_to_set l)
        by (now apply subseteq_union_1_L, singleton_subseteq_l).
      rewrite E' in E. pose proof (size_list_to_set_le l). lia.
    + rewrite size_union in E by set_solver. rewrite size_singleton in E.
      apply NoDup_cons. split; [set_solver | apply IH; lia].
Qed.

Lemma NoDup_map_injective {A B : Type} (f : A -> B) (l : list A) (x y : A) :
  NoDup (map f l) -> In x l -> In y l -> f x = f y -> x = y.
Proof.
  induction l as [|a l IH]; cbn [map In]; [tauto |].
  intros Hnd Hx Hy E. apply NoDup_cons in Hnd. destruct Hnd as [Hnin Hnd].
  destruct Hx as [-> | Hx], Hy as [-> | Hy]; [reflexivity | | | now apply IH].
  - exfalso. apply Hnin. rewrite E. apply list_elem_of_In. now apply in_map.
  - exfalso. apply Hnin. rewrite <- E. apply list_elem_of_In. now apply in_map.
Qed.

Lemma renamed_df_cases (df : DataFrame) (mapper : gmap string string) :
  (NoDup (columns (rename df mapper)) /\ renamed_df df mapper = Some (rename df mapper))
  \/ (~ NoDup (columns (rename df mapper)) /\ renamed_df df mapper = None).
Proof.
  unfold renamed_df.
  destruct (Nat.eqb_spec (size (list_to_set (columns (rename df mapper)) : gset string))
                         (length (columns (rename df mapper)))) as [E | Hne];
    cbn [negb]; [left | right]; (split; [| reflexivity]).
  - now apply size_list_to_set_NoDup.
  - intros Hnd. now apply size_list_to_set_NoDup in Hnd.
Qed.

Lemma collect_lookup (text_input : string -> string) (cols : list string)
    (m : gmap string string) (col : string) :
  fold_left (fun acc c => <[c := text_input c]> acc) cols m !! col
  = if decide (col ∈ cols) then Some (text_input col) else m !! col.
Proof.
  revert m. induction cols as [|c cols IH]; intros m; cbn [fold_left].
  - reflexivity.
  - rewrite IH.
    destruct (decide (col ∈ cols)) as [Hin | Hnin].
    + rewrite decide_True by (now right). reflexivity.
    + destruct (decide (col = c)) as [-> | Hne].
      * rewrite decide_True by left. apply lookup_insert_eq.
      * rewrite decide_False by (intros H; apply elem_of_cons in H; tauto).
        now apply lookup_insert_ne.
Qed.

(** The dict of the rename form gives every column what its text input holds. *)
Lemma new_name_collected (text_input : string -> string) (cols : list string)
    (col : string) :
  In col cols ->
  new_name (collect_new_column_names text_input cols) col = text_input col.
Proof.
  intros Hin. unfold new_name, collect_new_column_names.
  rewrite collect_lookup, decide_True by (now apply list_elem_of_In).
  reflexivity.
Qed.

(** C8. When the rename dict gives two different columns of the table
    the same new name, the rename step stops the script and nothing is
    generated. When the new names are pairwise different the step goes
    through, and in the table it hands to the generator only the labels
    differ: each column carries its new name, the rows and their order
    are those of the original, so that the statements differ from those
    of the original table by their column list alone. *)
Theorem rename_rejects_collisions_and_keeps_rows (df : DataFrame)
    (new_column_names : gmap string string) :
  (forall col1 col2 : string,
     In col1 (columns df) -> In col2 (columns df) -> col1 <> col2 ->
     new_name new_column_names col1 = new_name new_column_names col2 ->
     renamed_df df new_column_names = None)
  /\ (NoDup (map (new_name new_column_names) (columns df)) ->
      renamed_df df new_column_names = Some (rename df new_column_names))
  /\ (forall renamed : DataFrame,
        renamed_df df new_column_names = Some renamed ->
        columns renamed = map (new_name new_column_names) (columns df)
        /\ NoDup (columns renamed)
        /\ rows renamed = rows df
        /\ forall (table_name : string) (chunk_size : Z) (use_ignore : bool),
             1 <= chunk_size ->
             df_chunks renamed chunk_size = df_chunks df chunk_size
             /\ insert_queries renamed table_name chunk_size use_ignore
                = Some (map (statement use_ignore table_name
                               (map (new_name new_column_names) (columns df)))
                            (chunks_of df chunk_size))
             /\ insert_queries df table_name chunk_size use_ignore
                = Some (map (statement use_ignore table_name (columns df))
                            (chunks_of df chunk_size))).
Proof.
  destruct (renamed_df_cases df new_column_names) as [[Hnd ->] | [Hdup ->]].
  - split; [| split].
    + intros col1 col2 H1 H2 Hne E. exfalso. apply Hne.
      now apply (NoDup_map_injective (new_name new_column_names) (columns df)).
    + reflexivity.
    + intros renamed [= <-].
      split; [reflexivity |]. split; [exact Hnd |]. split; [reflexivity |].
      intros table_name chunk_size use_ignore Hc.
      split; [reflexivity |]. split; [| now apply insert_queries_eq].
      now rewrite insert_queries_eq.
  - split; [| split].
    + reflexivity.
    + intros Hnd. now destruct Hdup.
    + discriminate.
Qed.

Lemma rename_rejects_collisions_and_keeps_rows_witness :
  renamed_df sample_df {[ "id" := "name" ]} = None
  /\ renamed_df sample_df {[ "id" := "user_id" ]}
     = Some {| columns := ["user_id"; "name"; "joined"]; rows := rows sample_df |}.
Proof.
  split.
  - apply (proj1 (rename_rejects_collisions_and_keeps_rows sample_df
                    {[ "id" := "name" ]}) "id" "name").
    + cbn. tauto.
    + cbn. tauto.
    + discriminate.
    + reflexivity.
  - rewrite (proj1 (proj2 (rename_rejects_collisions_and_keeps_rows sample_df
                             {[ "id" := "user_id" ]}))).
    + vm_compute. reflexivity.
    + vm_compute. repeat constructor; rewrite ?elem_of_cons, ?elem_of_nil;
        intuition discriminate.
Defined.

(** * Further properties of the code *)

(** ** The encoder beyond the round trip *)

Lemma well_escaped_escape_char (c : ascii) (rest : string) :
  well_escaped (escape_char c +:+ rest) = well_escaped rest.
Proof.
  unfold escape_char.
  destruct (Ascii.eqb_spec c Chr.backslash) as [->|H1]; [reflexivity |].
  destruct (Ascii.eqb_spec c Chr.squote) as [->|H2]; [reflexivity |].
  destruct (Ascii.eqb_spec c Chr.dquote) as [->|H3]; [reflexivity |].
  destruct (Ascii.eqb_spec c Chr.newline) as [->|H4]; [reflexivity |].
  destruct (Ascii.eqb_spec c Chr.cr) as [->|H5]; [reflexivity |].
  unfold chr. rewrite str_app_cons, str_app_empty_l. cbn [well_escaped].
  unfold special.
  apply Ascii.eqb_neq in H1, H2, H3, H4, H5.
  now rewrite H1, H2, H3, H4, H5.
Qed.

Lemma well_escaped_one_pass (s : string) : well_escaped (escape_one_pass s) = true.
Proof.
  unfold escape_one_pass.
  induction s as [|c s IH]; [reflexivity |].
  cbn [flat_map_chars]. now rewrite well_escaped_escape_char.
Qed.

(** X1. In what [escape_mysql] returns, every backslash opens one of
    the five escape sequences and no quote, double quote, newline or
    carriage return stands unescaped: inside the quotes of a text
    literal nothing can end the literal early. *)
Theorem escape_mysql_well_escaped (val : pyval) :
  well_escaped (escape_mysql val) = true.
Proof. rewrite escape_mysql_one_pass. apply well_escaped_one_pass. Qed.

Lemma str_length_app (a b : string) :
  String.length (a +:+ b) = (String.length a + String.length b)%nat.
Proof.
  induction a as [|c a IH]; [reflexivity |].
  rewrite str_app_cons. cbn [String.length]. now rewrite IH.
Qed.

Lemma length_escape_char (c : ascii) :
  String.length (escape_char c) = (1 + if special c then 1 else 0)%nat.
Proof.
  unfold escape_char, special.
  destruct (Ascii.eqb c Chr.backslash); [reflexivity |].
  destruct (Ascii.eqb c Chr.squote); [reflexivity |].
  destruct (Ascii.eqb c Chr.dquote); [reflexivity |].
  destruct (Ascii.eqb c Chr.newline); [reflexivity |].
  destruct (Ascii.eqb c Chr.cr); reflexivity.
Qed.

Lemma count_special_le (s : string) : (count_special s <= String.length s)%nat.
Proof.
  induction s as [|c s IH]; cbn [count_special String.length]; [lia |].
  destruct (special c); lia.
Qed.

(** X2. Escaping a text adds one character for each backslash, quote,
    double quote, newline and carriage return in it and nothing else:
    the result is never shorter than the text and at most twice as
    long. *)
Theorem escape_mysql_length (s : string) :
  String.length (escape_mysql (PyStr s))
  = (String.length s + count_special s)%nat
  /\ (String.length s <= String.length (escape_mysql (PyStr s)) <= 2 * String.length s)%nat.
Proof.
  assert (E : String.length (escape_mysql (PyStr s))
              = (String.length s + count_special s)%nat).
  { rewrite escape_mysql_one_pass. cbn [str]. unfold escape_one_pass.
    induction s as [|c s IH]; [reflexivity |].
    cbn [flat_map_chars String.length count_special].
    rewrite str_length_app, length_escape_char, IH. lia. }
  split; [exact E |]. pose proof (count_special_le s). lia.
Qed.

Lemma escape_decode_aux (k : nat) (b : string) :
  (String.length b <= k)%nat -> well_escaped b = true ->
  escape_one_pass (decode_escapes b) = b.
Proof.
  revert b. induction k as [|k IH]; intros b Hlen Hwe.
  - destruct b; [reflexivity | cbn in Hlen; lia].
  - destruct b as [|c b]; [reflexivity |].
    cbn [well_escaped decode_escapes] in *.
    destruct (Ascii.eqb_spec c Chr.backslash) as [-> | Hc].
    + destruct b as [|e b]; [discriminate |].
      apply andb_prop in Hwe. destruct Hwe as [He Hwe].
      cbn [String.length] in Hlen.
      assert (IHb : escape_one_pass (decode_escapes b) = b) by (apply IH; [lia | exact Hwe]).
      destruct (Ascii.eqb_spec e Chr.backslash) as [-> | H1];
        [cbn [orb]; unfold escape_one_pass in *; cbn [flat_map_chars];
         rewrite IHb; reflexivity |].
      destruct (Ascii.eqb_spec e Chr.squote) as [-> | H2];
        [cbn [orb]; unfold escape_one_pass in *; cbn [flat_map_chars];
         rewrite IHb; reflexivity |].
      destruct (Ascii.eqb_spec e Chr.dquote) as [-> | H3];
        [cbn [orb]; unfold escape_one_pass in *; cbn [flat_map_chars];
         rewrite IHb; reflexivity |].
      cbn [orb] in *.
      destruct (Ascii.eqb_spec e Chr.n) as [-> | H4];
        [unfold escape_one_pass in *; cbn [flat_map_chars];
         rewrite IHb; reflexivity |].
      destruct (Ascii.eqb_spec e Chr.r) as [-> | H5];
        [unfold escape_one_pass in *; cbn [flat_map_chars];
         rewrite IHb; reflexivity |].
      discriminate.
    + apply andb_prop in Hwe. destruct Hwe as [Hs Hwe].
      apply negb_true_iff in Hs.
      cbn [String.length] in Hlen.
      unfold escape_one_pass in *. cbn [flat_map_chars].
      rewrite (special_false_escape_char c Hs), (IH b) by (lia || exact Hwe).
      reflexivity.
Qed.

(** X3. A well-escaped text is the escaping of its decoding: with the
    round trip, [escape_mysql] and the decoding are inverse to each
    other between all texts and the well-escaped ones, so that the
    well-escaped texts are exactly what [escape_mysql] can return. *)
Theorem escape_mysql_of_decoded (b : string) :
  well_escaped b = true -> escape_mysql (PyStr (decode_escapes b)) = b.
Proof.
  intros Hwe. rewrite escape_mysql_one_pass. cbn [str].
  now apply (escape_decode_aux (String.length b)).
Qed.

Lemma escape_mysql_of_decoded_witness :
  well_escaped "it\'s a \\ path\n" = true
  /\ escape_mysql (PyStr (decode_escapes "it\'s a \\ path\n")) = "it\'s a \\ path\n".
Proof.
  split; [reflexivity |].
  apply (escape_mysql_of_decoded "it\'s a \\ path\n"). reflexivity.
Defined.










Lemma int_of_literal_str_int (i : Z) : int_of_literal (Py.str_int i) = Some i.
Proof.
  unfold int_of_literal, Py.str_int. rewrite NilZero.isi.
  - cbn [option_map]. now rewrite DecimalZ.of_to.
  - destruct i; cbn [Z.to_int]; try discriminate.
    intros [= E]. now apply DecimalPos.Unsigned.to_uint_nonnil in E.
  - destruct i; cbn [Z.to_int]; try discriminate.
    intros [= E]. now apply DecimalPos.Unsigned.to_uint_nonnil in E.
Qed.

(** X5. An integer cell, of the Python or of the NumPy type, is written
    without quotes as the decimal numeral that reads back as the same
    integer. *)
Theorem int_literal_round_trip (i : Z) :
  int_of_literal (format_sql_value (PyInt i)) = Some i
  /\ int_of_literal (format_sql_value (NpInt i)) = Some i.
Proof.
  change (format_sql_value (PyInt i)) with (Py.str_int i).
  change (format_sql_value (NpInt i)) with (Py.str_int i).
  split; apply int_of_literal_str_int.
Qed.

(** ** The generator at the edges of the chunk size *)

(** X6. A chunk size below one is not refused by the generator: zero
    makes [range] raise, and a negative size raises nothing and visits
    no row, so that the output is the empty string whatever the table
    holds. *)
Theorem chunk_size_below_one (df : DataFrame) (table_name : string)
    (chunk_size : Z) (use_ignore : bool) :
  chunk_size < 1 ->
  generate_chunked_insert_queries df table_name chunk_size use_ignore
  = if chunk_size =? 0 then None else Some "".
Proof.
  intros Hlow.
  unfold generate_chunked_insert_queries, insert_queries, Py.range, Py.range_length.
  destruct (Z.eqb_spec chunk_size 0); [reflexivity |].
  destruct (Z.ltb_spec 0 chunk_size); [lia |].
  destruct (Z.ltb_spec (len df) 0); [unfold len in *; lia |].
  reflexivity.
Qed.

Lemma chunk_size_below_one_witness :
  -5 < 1 /\ generate_chunked_insert_queries sample_df "users" (-5) false = Some "".
Proof.
  split; [lia |].
  apply (chunk_size_below_one sample_df "users" (-5) false). lia.
Defined.

Lemma chunks_of_lookup (df : DataFrame) (chunk_size : Z) (i : nat)
    (chunk : list (list pyval)) :
  1 <= chunk_size ->
  chunks_of df chunk_size !! i = Some chunk ->
  (i < length (chunks_of df chunk_size))%nat
  /\ chunk = take (Z.to_nat chunk_size) (drop (i * Z.to_nat chunk_size) (rows df))
  /\ Z.of_nat i * chunk_size < len df.
Proof.
  intros Hc Hi.
  pose proof (lookup_lt_Some _ _ _ Hi) as Hlt.
  split; [exact Hlt |].
  unfold chunks_of in *. rewrite length_map, length_seq in Hlt.
  change (map ?f ?l) with (f <$> l) in Hi.
  rewrite list_lookup_fmap, lookup_seq_lt in Hi by exact Hlt.
  cbn in Hi. split; [congruence |].
  apply index_in_range; [exact Hc |]. apply in_seq. lia.
Qed.

(** X7. With a chunk size [C] of at least one, the chunk at position
    [i] holds the [min(C, R - i * C)] rows from row [i * C] on: never
    none, never more than [C], and exactly [C] in every chunk that is
    not the last. *)
Theorem chunk_sizes (df : DataFrame) (chunk_size : Z) :
  1 <= chunk_size ->
  exists chunks : list (list (list pyval)),
    df_chunks df chunk_size = Some chunks
    /\ forall (i : nat) (chunk : list (list pyval)),
         chunks !! i = Some chunk ->
         chunk = Py.slice (rows df) (Z.of_nat i * chunk_size)
                          (Z.of_nat i * chunk_size + chunk_size)
         /\ Z.of_nat (length chunk) = Z.min chunk_size (len df - Z.of_nat i * chunk_size)
         /\ 1 <= Z.of_nat (length chunk) <= chunk_size
         /\ ((i + 1 < length chunks)%nat -> Z.of_nat (length chunk) = chunk_size).
Proof.
  intros Hc. exists (chunks_of df chunk_size).
  split; [now apply df_chunks_eq |].
  intros i chunk Hi.
  destruct (chunks_of_lookup df chunk_size i chunk Hc Hi) as (Hlt & -> & Hin).
  assert (Hlen : Z.of_nat (length (take (Z.to_nat chunk_size)
                     (drop (i * Z.to_nat chunk_size) (rows df))))
                 = Z.min chunk_size (len df - Z.of_nat i * chunk_size)).
  { rewrite length_take, length_drop. unfold len in *. nia. }
  split; [| split; [exact Hlen | split; [lia |]]].
  - unfold Py.slice, Py.clamp.
    destruct (Z.ltb_spec (Z.of_nat i * chunk_size) 0); [lia |].
    destruct (Z.ltb_spec (Z.of_nat i * chunk_size + chunk_size) 0); [lia |].
    fold (len df).
    replace (Z.to_nat (Z.min (Z.of_nat i * chunk_size) (len df)))
      with (i * Z.to_nat chunk_size)%nat by lia.
    destruct (Z.le_ge_cases (Z.of_nat i * chunk_size + chunk_size) (len df)).
    + f_equal. lia.
    + rewrite (take_ge _ (Z.to_nat chunk_size))
        by (rewrite length_drop; unfold len in *; lia).
      symmetry. apply take_ge. rewrite length_drop. unfold len in *. lia.
  - intros Hnext.
    assert (Hnext' : Z.of_nat (i + 1) * chunk_size < len df).
    { apply index_in_range; [exact Hc |]. apply in_seq.
      unfold chunks_of in Hnext. rewrite length_map, length_seq in Hnext. lia. }
    lia.
Qed.

Lemma chunk_sizes_witness :
  1 <= 2
  /\ exists chunks : list (list (list pyval)),
       df_chunks sample_df 2 = Some chunks /\ map length chunks = [2%nat; 1%nat].
Proof.
  split; [lia |].
  destruct (chunk_sizes sample_df 2 ltac:(lia)) as (chunks & Hchunks & _).
  exists chunks. split; [exact Hchunks |].
  vm_compute in Hchunks. injection Hchunks as <-. reflexivity.
Defined.

Lemma chunks_of_covering (df : DataFrame) (chunk_size : Z) :
  1 <= len df <= chunk_size -> chunks_of df chunk_size = [rows df].
Proof.
  intros [Hpos Hle].
  assert (Hc : 1 <= chunk_size) by lia.
  pose proof (length_chunks_of df chunk_size Hc) as Hn.
  pose proof (concat_chunks_of df chunk_size Hc) as Hcat.
  assert (E : ceil_div (len df) chunk_size = 1).
  { unfold ceil_div.
    replace (len df + chunk_size - 1) with (len df - 1 + 1 * chunk_size) by lia.
    rewrite Z.div_add by lia. rewrite Z.div_small by lia. reflexivity. }
  rewrite E in Hn.
  destruct (chunks_of df chunk_size) as [|chunk [|? ?]]; cbn in Hn; try lia.
  cbn in Hcat. rewrite app_nil_r in Hcat. now subst.
Qed.

(** X8. When the table has rows and the chunk size is at least their
    number, the output is one statement that holds every row, with no
    separator. *)
Theorem one_statement_when_chunk_covers_table (df : DataFrame)
    (table_name : string) (chunk_size : Z) (use_ignore : bool) :
  1 <= len df <= chunk_size ->
  generate_chunked_insert_queries df table_name chunk_size use_ignore
  = Some (statement use_ignore table_name (columns df) (rows df)).
Proof.
  intros H. unfold generate_chunked_insert_queries.
  rewrite insert_queries_eq by lia. now rewrite chunks_of_covering.
Qed.

Lemma one_statement_when_chunk_covers_table_witness :
  1 <= len sample_df <= 1000
  /\ generate_chunked_insert_queries sample_df "users" 1000 false
     = Some (statement false "users" (columns sample_df) (rows sample_df)).
Proof.
  split; [vm_compute; split; discriminate |].
  apply (one_statement_when_chunk_covers_table sample_df "users" 1000 false).
  vm_compute; split; discriminate.
Defined.

Lemma singleton_chunks {A : Type} (l : list A) :
  map (fun i : nat => take 1 (drop (i * 1) l)) (seq 0 (length l))
  = map (fun x => [x]) l.
Proof.
  induction l as [|x l IH]; [reflexivity |].
  cbn [length seq map]. f_equal.
  rewrite <- seq_shift, map_map. rewrite <- IH.
  apply map_ext. intros i. now rewrite !Nat.mul_1_r.
Qed.

(** X9. With a chunk size of one, every row gets a statement of its
    own, in row order. *)
Theorem one_statement_per_row (df : DataFrame) (table_name : string)
    (use_ignore : bool) :
  insert_queries df table_name 1 use_ignore
  = Some (map (fun row => statement use_ignore table_name (columns df) [row])
              (rows df)).
Proof.
  rewrite insert_queries_eq by lia. f_equal.
  unfold chunks_of, ceil_div, len.
  replace (Z.to_nat ((Z.of_nat (length (rows df)) + 1 - 1) / 1))
    with (length (rows df)) by (rewrite Z.div_1_r; lia).
  change (Z.to_nat 1) with 1%nat.
  now rewrite singleton_chunks, map_map.
Qed.

Lemma ceil_div_add_multiple (k r c : Z) :
  0 <= k -> 0 <= r -> 1 <= c -> ceil_div (k * c + r) c = k + ceil_div r c.
Proof.
  intros Hk Hr Hc. unfold ceil_div.
  replace (k * c + r + c - 1) with (r + c - 1 + k * c) by lia.
  rewrite Z.div_add by lia. lia.
Qed.

Lemma ceil_div_multiple (k c : Z) : 0 <= k -> 1 <= c -> ceil_div (k * c) c = k.
Proof.
  intros Hk Hc. replace (k * c) with (k * c + 0) by lia.
  rewrite ceil_div_add_multiple by lia.
  unfold ceil_div. rewrite Z.div_small by lia. lia.
Qed.

Lemma chunks_of_app (cols : list string) (rows1 rows2 : list (list pyval))
    (chunk_size : Z) (k : nat) :
  1 <= chunk_size ->
  Z.of_nat (length rows1) = Z.of_nat k * chunk_size ->
  chunks_of {| columns := cols; rows := rows1 ++ rows2 |} chunk_size
  = (chunks_of {| columns := cols; rows := rows1 |} chunk_size
     ++ chunks_of {| columns := cols; rows := rows2 |} chunk_size)%list.
Proof.
  intros Hc Hk. unfold chunks_of, len. cbn [rows].
  set (c := Z.to_nat chunk_size).
  assert (Hlen1 : length rows1 = (k * c)%nat) by (unfold c; nia).
  rewrite length_app, Nat2Z.inj_add, Hk, ceil_div_add_multiple, ceil_div_multiple by lia.
  rewrite Z2Nat.inj_add
    by (try lia; apply (ceil_div_bounds (Z.of_nat (length rows2)) chunk_size); lia).
  rewrite Nat2Z.id, seq_app, map_app. f_equal.
  - apply map_ext_in. intros i Hi. apply in_seq in Hi.
    rewrite drop_app_le by nia. apply take_app_le.
    rewrite length_drop. nia.
  - cbn [Nat.add]. rewrite <- (Nat.add_0_r k) at 1.
    rewrite <- (fmap_add_seq k 0). change (?f <$> ?l) with (map f l).
    rewrite map_map. apply map_ext. intros j.
    replace ((k + j) * c)%nat with (length rows1 + j * c)%nat by lia.
    now rewrite drop_app_add.
Qed.

(** X10. When the first rows of a table fill whole chunks, the
    statements of the table are those of the first rows followed by
    those of the remaining rows: rows added at the end leave the
    statements of full chunks before them as they were. *)
Theorem statements_of_appended_rows (cols : list string)
    (rows1 rows2 : list (list pyval)) (table_name : string) (chunk_size : Z)
    (use_ignore : bool) (k : nat) :
  1 <= chunk_size ->
  Z.of_nat (length rows1) = Z.of_nat k * chunk_size ->
  exists queries1 queries2 : list string,
    insert_queries {| columns := cols; rows := rows1 |} table_name chunk_size use_ignore
    = Some queries1
    /\ insert_queries {| columns := cols; rows := rows2 |} table_name chunk_size use_ignore
       = Some queries2
    /\ insert_queries {| columns := cols; rows := rows1 ++ rows2 |} table_name
                      chunk_size use_ignore
       = Some (queries1 ++ queries2)%list
    /\ length queries1 = k.
Proof.
  intros Hc Hk. rewrite !insert_queries_eq by exact Hc.
  do 2 eexists. split; [reflexivity |]. split; [reflexivity |]. cbn [columns].
  split.
  - now rewrite (chunks_of_app cols rows1 rows2 chunk_size k Hc Hk), map_app.
  - rewrite length_map.
    pose proof (length_chunks_of {| columns := cols; rows := rows1 |} chunk_size Hc) as Hn.
    unfold len in Hn. cbn [rows] in Hn. rewrite Hk, ceil_div_multiple in Hn by lia. lia.
Qed.

Lemma statements_of_appended_rows_witness :
  1 <= 2
  /\ Z.of_nat (length (take 2 (rows sample_df))) = Z.of_nat 1 * 2
  /\ exists queries1 queries2 : list string,
       insert_queries sample_df "users" 2 false = Some (queries1 ++ queries2)%list
       /\ length queries1 = 1%nat.
Proof.
  split; [lia |]. split; [reflexivity |].
  destruct (statements_of_appended_rows (columns sample_df) (take 2 (rows sample_df))
              (drop 2 (rows sample_df)) "users" 2 false 1 ltac:(lia) eq_refl)
    as (queries1 & queries2 & _ & _ & Happ & Hlen).
  exists queries1, queries2. split; [exact Happ | exact Hlen].
Defined.

(** ** The rename form *)

Lemma renamed_columns_of_form (text_input : string -> string) (df : DataFrame) :
  rename df (collect_new_column_names text_input (columns df))
  = {| columns := map text_input (columns df); rows := rows df |}.
Proof.
  unfold rename. f_equal. apply map_ext_in. intros col Hin.
  now apply new_name_collected.
Qed.

Lemma widget_key_inj (col1 col2 : string) :
  widget_key col1 = widget_key col2 -> col1 = col2.
Proof. unfold widget_key. apply String.app_inj. Qed.

(** Distinct labels whose keys are not on the page yet: the loop runs
    to its end and the dict is the one the entries give. *)
Lemma rename_form_distinct (text_input : string -> string) (cols : list string)
    (keys : gset string) (m : gmap string string) :
  NoDup cols -> (forall col, In col cols -> widget_key col ∉ keys) ->
  rename_form text_input cols keys m
  = ([], Continue (fold_left (fun acc c => <[c := text_input c]> acc) cols m)).
Proof.
  revert keys m. induction cols as [|col cols IH]; intros keys m Hnd Hfresh;
    [reflexivity |].
  apply NoDup_cons in Hnd. destruct Hnd as [Hnin Hnd].
  cbn [rename_form fold_left].
  rewrite decide_False by (apply Hfresh; now left).
  apply IH; [exact Hnd |].
  intros c Hc Hin. apply elem_of_union in Hin. destruct Hin as [Hin | Hin].
  - apply elem_of_singleton in Hin. apply widget_key_inj in Hin. subst c.
    apply Hnin. now apply list_elem_of_In.
  - apply (Hfresh c); [now right | exact Hin].
Qed.

(** A label met twice, or a key already on the page: the loop raises. *)
Lemma rename_form_duplicate (text_input : string -> string) (cols : list string)
    (keys : gset string) (m : gmap string string) :
  ~ NoDup cols \/ (exists col, In col cols /\ widget_key col ∈ keys) ->
  rename_form text_input cols keys m = ([], Raised).
Proof.
  revert keys m. induction cols as [|col cols IH]; intros keys m H.
  - destruct H as [H | (c & [] & _)]. destruct H. constructor.
  - cbn [rename_form].
    destruct (decide (widget_key col ∈ keys)) as [Hin | Hnin]; [reflexivity |].
    apply IH.
    destruct (decide (col ∈ cols)) as [Hcol | Hcol].
    + right. exists col. split; [now apply list_elem_of_In |].
      apply elem_of_union. left. now apply elem_of_singleton.
    + destruct H as [H | (c & [<- | Hc] & Hkey)].
      * left. intros Hnd. apply H. apply NoDup_cons. now split.
      * contradiction.
      * right. exists c. split; [exact Hc |]. apply elem_of_union. now right.
Qed.

(** The three ways the rename step ends. *)
Lemma rename_step_cases (text_input : string -> string) (df : DataFrame) :
  (~ NoDup (columns df) -> rename_step text_input df = ([], Raised))
  /\ (NoDup (columns df) -> NoDup (map text_input (columns df)) ->
      rename_step text_input df
      = ([], Continue {| columns := map text_input (columns df); rows := rows df |}))
  /\ (NoDup (columns df) -> ~ NoDup (map text_input (columns df)) ->
      rename_step text_input df
      = ([Error "Error: New column names are not unique. Please fix the duplicates."],
         Stopped)).
Proof.
  unfold rename_step. split; [| split].
  - intros Hdup. rewrite rename_form_duplicate by (now left). reflexivity.
  - intros Hcols Hnd.
    rewrite rename_form_distinct by (exact Hcols || (intros; apply not_elem_of_empty)).
    cbn [st_bind]. fold (collect_new_column_names text_input (columns df)).
    destruct (renamed_df_cases df (collect_new_column_names text_input (columns df)))
      as [[_ ->] | [Hdup _]].
    + now rewrite renamed_columns_of_form.
    + rewrite renamed_columns_of_form in Hdup. now destruct Hdup.
  - intros Hcols Hdup.
    rewrite rename_form_distinct by (exact Hcols || (intros; apply not_elem_of_empty)).
    cbn [st_bind]. fold (collect_new_column_names text_input (columns df)).
    destruct (renamed_df_cases df (collect_new_column_names text_input (columns df)))
      as [[Hnd _] | [_ ->]].
    + rewrite renamed_columns_of_form in Hnd. now destruct Hdup.
    + reflexivity.
Qed.

(** X11. For a table whose column labels are pairwise different, the
    rename form lets the page go on exactly when the names entered for
    the columns are pairwise different; the table is then the original
    with each column under the name entered for it, and no message is
    shown; otherwise the page shows the error about duplicates and
    stops. When two labels have the same text their text inputs get the
    same key: the form raises before the names are checked, and neither
    the error nor the stop is reached. *)
Theorem rename_form_outcome (text_input : string -> string) (df : DataFrame) :
  (NoDup (columns df) -> NoDup (map text_input (columns df)) ->
   rename_step text_input df
   = ([], Continue {| columns := map text_input (columns df); rows := rows df |}))
  /\ (NoDup (columns df) -> ~ NoDup (map text_input (columns df)) ->
      rename_step text_input df
      = ([Error "Error: New column names are not unique. Please fix the duplicates."],
         Stopped))
  /\ (~ NoDup (columns df) -> rename_step text_input df = ([], Raised)).
Proof.
  destruct (rename_step_cases text_input df) as (Hraise & Hok & Hstop).
  split; [exact Hok | split; [exact Hstop | exact Hraise]].
Qed.

Lemma rename_form_outcome_witness :
  rename_step (fun col => if String.eqb col "id" then "name" else col) sample_df
  = ([Error "Error: New column names are not unique. Please fix the duplicates."],
     Stopped)
  /\ rename_step (fun col => if String.eqb col "id" then "user_id" else col) sample_df
     = ([], Continue {| columns := ["user_id"; "name"; "joined"];
                        rows := rows sample_df |})
  /\ rename_step (fun col => col) {| columns := ["1"; "1"]; rows := [[PyInt 7; PyInt 8]] |}
     = ([], Raised).
Proof.
  split; [| split].
  - apply (proj1 (proj2 (rename_form_outcome
                    (fun col => if String.eqb col "id" then "name" else col) sample_df))).
    + vm_compute. repeat constructor; rewrite ?elem_of_cons, ?elem_of_nil;
        intuition discriminate.
    + vm_compute. intros H. apply NoDup_cons in H. destruct H as [H _].
      apply H. left.
  - apply (proj1 (rename_form_outcome
                    (fun col => if String.eqb col "id" then "user_id" else col)
                    sample_df)).
    + vm_compute. repeat constructor; rewrite ?elem_of_cons, ?elem_of_nil;
        intuition discriminate.
    + vm_compute. repeat constructor; rewrite ?elem_of_cons, ?elem_of_nil;
        intuition discriminate.
  - apply (proj2 (proj2 (rename_form_outcome (fun col => col)
                           {| columns := ["1"; "1"]; rows := [[PyInt 7; PyInt 8]] |}))).
    cbn [columns]. intros H. apply NoDup_cons in H. destruct H as [H _].
    apply H. left.
Defined.

(** X12. Names that are the column names in another order are
    accepted when the columns are distinct: two columns can swap their
    names in one step. A form left untouched gives the table back
    unchanged. *)
Theorem rename_form_accepts_permutation (text_input : string -> string)
    (df : DataFrame) :
  NoDup (columns df) ->
  Permutation (columns df) (map text_input (columns df)) ->
  rename_step text_input df
  = ([], Continue {| columns := map text_input (columns df); rows := rows df |})
  /\ rename_step (fun col => col) df = ([], Continue df).
Proof.
  intros Hnd Hperm. split.
  - apply rename_step_cases; [exact Hnd | now rewrite <- Hperm].
  - destruct (rename_step_cases (fun col => col) df) as (_ & Hok & _).
    rewrite Hok by (exact Hnd || now rewrite map_id).
    rewrite map_id. now destruct df.
Qed.

Lemma rename_form_accepts_permutation_witness :
  rename_step (fun col => if String.eqb col "id" then "name"
                          else if String.eqb col "name" then "id" else col)
              sample_df
  = ([], Continue {| columns := ["name"; "id"; "joined"]; rows := rows sample_df |}).
Proof.
  apply (rename_form_accepts_permutation
           (fun col => if String.eqb col "id" then "name"
                       else if String.eqb col "name" then "id" else col)
           sample_df).
  - vm_compute. repeat constructor; rewrite ?elem_of_cons, ?elem_of_nil;
      intuition discriminate.
  - vm_compute. apply perm_swap.
Defined.

(** ** The page around the generator *)

Lemma split_without_separator (s : string) (sep : ascii) :
  occurs sep s = false -> Py.split s sep = [s].
Proof.
  induction s as [|c s IH]; [reflexivity |].
  cbn [occurs Py.split]. intros H. apply orb_false_elim in H. destruct H as [Hc Hs].
  now rewrite Hc, (IH Hs).
Qed.

Lemma split_two_pieces (a b : string) (sep : ascii) :
  exists piece1 piece2 pieces,
    Py.split (a +:+ String sep b) sep = piece1 :: piece2 :: pieces
    /\ List.last (piece2 :: pieces) "" = List.last (Py.split b sep) "".
Proof.
  induction a as [|c a (p1 & p2 & ps & E & Hlast)].
  - rewrite str_app_empty_l. cbn [Py.split]. rewrite Ascii.eqb_refl.
    destruct (Py.split b sep) as [|q qs] eqn:Eb.
    + destruct b; cbn in Eb; [discriminate |].
      destruct (Ascii.eqb a sep); [discriminate |].
      destruct (Py.split b sep); discriminate.
    + now exists "", q, qs.
  - rewrite str_app_cons. cbn [Py.split]. rewrite E.
    destruct (Ascii.eqb c sep).
    + exists "", p1, (p2 :: ps). split; [reflexivity |]. exact Hlast.
    + exists (String c p1), p2, ps. split; [reflexivity | exact Hlast].
Qed.

(** X13. The file type is the text after the last dot of the file
    name, upper and lower case kept, and the whole name when it has no
    dot: a file named [csv] is read as CSV. *)
Theorem file_type_after_last_dot (base ext : string) :
  occurs "." ext = false ->
  file_type (base +:+ "." +:+ ext) = ext /\ file_type ext = ext.
Proof.
  intros Hext. unfold file_type. split.
  - change ("." +:+ ext) with (String "."%char ext).
    destruct (split_two_pieces base ext ".") as (p1 & p2 & ps & -> & Hlast).
    change (List.last (p1 :: p2 :: ps) "") with (List.last (p2 :: ps) "").
    now rewrite Hlast, split_without_separator.
  - now rewrite split_without_separator.
Qed.

Lemma file_type_after_last_dot_witness :
  occurs "." "xlsx" = false
  /\ file_type "report.2024.xlsx" = "xlsx" /\ file_type "xlsx" = "xlsx".
Proof.
  split; [reflexivity |].
  apply (file_type_after_last_dot "report.2024" "xlsx"). reflexivity.
Defined.

Lemma load_continue_inv (uploaded_file : upload) (msgs : list message)
    (df : DataFrame) :
  load uploaded_file = (msgs, Continue df) ->
  msgs = [] /\ rows df <> [] /\ columns df <> []
  /\ ((file_type (name uploaded_file) = "csv"
       /\ read_csv uploaded_file = ReadOk df)
      \/ ((file_type (name uploaded_file) = "xlsx"
           \/ file_type (name uploaded_file) = "xls")
          /\ read_excel uploaded_file = ReadOk df)).
Proof.
  unfold load.
  destruct (String.eqb_spec (file_type (name uploaded_file)) "csv") as [Ecsv | Ncsv].
  - destruct (read_csv uploaded_file) as [e | df']; cbn; [discriminate |].
    destruct (df_empty df') eqn:Eempty; cbn; [discriminate |].
    intros [= <- <-]. unfold df_empty in Eempty.
    destruct (rows df'), (columns df'); try discriminate. intuition congruence.
  - destruct (String.eqb_spec (file_type (name uploaded_file)) "xlsx") as [Ex | Nx];
      [| destruct (String.eqb_spec (file_type (name uploaded_file)) "xls") as [Ex | Nx']];
      cbn [orb]; try (cbn; discriminate);
      (destruct (read_excel uploaded_file) as [e | df']; cbn; [discriminate |];
       destruct (df_empty df') eqn:Eempty; cbn; [discriminate |];
       intros [= <- <-]; unfold df_empty in Eempty;
       destruct (rows df'), (columns df'); try discriminate; intuition congruence).
Qed.

(** X14. Loading lets the page go on exactly when the parser chosen by
    the file type, [read_csv] for [csv] and [read_excel] for [xlsx] and
    [xls], returned a table with at least one row and one column; that
    table is the one handed on, and no message is shown. *)
Theorem load_goes_on (uploaded_file : upload) (msgs : list message) (df : DataFrame) :
  load uploaded_file = (msgs, Continue df)
  <-> msgs = [] /\ rows df <> [] /\ columns df <> []
      /\ ((file_type (name uploaded_file) = "csv"
           /\ read_csv uploaded_file = ReadOk df)
          \/ ((file_type (name uploaded_file) = "xlsx"
               \/ file_type (name uploaded_file) = "xls")
              /\ read_excel uploaded_file = ReadOk df)).
Proof.
  split; [apply load_continue_inv |]. unfold load.
  intros (-> & Hrows & Hcols & Hsrc).
  assert (Eempty : df_empty df = false).
  { unfold df_empty. destruct (rows df), (columns df); congruence. }
  destruct Hsrc as [[-> ->] | [Hx ->]].
  - cbn. now rewrite Eempty.
  - destruct Hx as [-> | ->]; cbn; now rewrite Eempty.
Qed.

(** X15. Loading never ends in an exception, and it never stops the
    page without a message: an unsupported file type is told twice, once
    as unsupported and once as a failure to load, whatever the parsers
    would have made of the file. *)
Theorem load_stops_with_a_message (uploaded_file : upload) :
  snd (load uploaded_file) <> Raised
  /\ (snd (load uploaded_file) = Stopped -> fst (load uploaded_file) <> [])
  /\ (file_type (name uploaded_file) <> "csv" ->
      file_type (name uploaded_file) <> "xlsx" ->
      file_type (name uploaded_file) <> "xls" ->
      load uploaded_file
      = ([Error "Unsupported file type. Please upload a .csv, .xls, or .xlsx file.";
          Error "Failed to load data. The file might be empty or corrupted."],
         Stopped)).
Proof.
  assert (Hread : forall r : read_result,
            let out := perform df <- try_read r in
                       match df with
                       | None =>
                           perform _ <-
                             st_error "Failed to load data. The file might be empty or corrupted." in
                           st_stop
                       | Some df =>
                           if df_empty df
                           then perform _ <- st_warning "The uploaded file is empty." in st_stop
                           else st_ret df
                       end in
            snd out <> Raised /\ (snd out = Stopped -> fst out <> [])).
  { intros [e | df']; cbn; [split; [discriminate | intros _; discriminate] |].
    destruct (df_empty df'); cbn; split; discriminate. }
  unfold load.
  destruct (String.eqb_spec (file_type (name uploaded_file)) "csv") as [Ecsv | Ncsv].
  { destruct (Hread (read_csv uploaded_file)) as [H1 H2].
    split; [exact H1 | split; [exact H2 | intros; congruence]]. }
  destruct (String.eqb_spec (file_type (name uploaded_file)) "xlsx") as [Ex | Nx].
  { destruct (Hread (read_excel uploaded_file)) as [H1 H2].
    split; [exact H1 | split; [exact H2 | intros; congruence]]. }
  destruct (String.eqb_spec (file_type (name uploaded_file)) "xls") as [Ex | Nx'].
  { destruct (Hread (read_excel uploaded_file)) as [H1 H2].
    split; [exact H1 | split; [exact H2 | intros; congruence]]. }
  cbn. split; [discriminate | split; [intros _; discriminate | reflexivity]].
Qed.

Lemma load_goes_on_witness :
  load {| name := "people.csv"; read_csv := ReadOk sample_df;
          read_excel := ReadRaises "not a workbook" |}
  = ([], Continue sample_df).
Proof.
  apply (proj2 (load_goes_on
                  {| name := "people.csv"; read_csv := ReadOk sample_df;
                     read_excel := ReadRaises "not a workbook" |} [] sample_df)).
  split; [reflexivity |]. split; [discriminate |]. split; [discriminate |].
  left. split; reflexivity.
Defined.

Lemma load_stops_with_a_message_witness :
  load {| name := "people.CSV"; read_csv := ReadOk sample_df;
          read_excel := ReadOk sample_df |}
  = ([Error "Unsupported file type. Please upload a .csv, .xls, or .xlsx file.";
      Error "Failed to load data. The file might be empty or corrupted."],
     Stopped).
Proof.
  apply (proj2 (proj2 (load_stops_with_a_message
                         {| name := "people.CSV"; read_csv := ReadOk sample_df;
                            read_excel := ReadOk sample_df |})));
    vm_compute; discriminate.
Defined.

Lemma lstrip_head (s : string) :
  Py.lstrip s = ""
  \/ exists c rest, Py.lstrip s = String c rest /\ Py.isspace c = false.
Proof.
  induction s as [|c s IH]; [now left |].
  cbn [Py.lstrip]. destruct (Py.isspace c) eqn:E; [exact IH |].
  right. now exists c, s.
Qed.

Lemma lstrip_empty (s : string) : Py.lstrip s = "" <-> all_space s = true.
Proof.
  induction s as [|c s IH]; [easy |].
  cbn [Py.lstrip all_space]. destruct (Py.isspace c); cbn [andb]; [exact IH | easy].
Qed.

Lemma rstrip_empty (s : string) : Py.rstrip s = "" <-> all_space s = true.
Proof.
  induction s as [|c s IH]; [easy |].
  cbn [Py.rstrip all_space].
  destruct (Py.rstrip s) eqn:E.
  - destruct (Py.isspace c); cbn [andb]; [| easy].
    split; [intros _; now apply IH | reflexivity].
  - split; [discriminate |]. intros H. apply andb_prop in H. destruct H as [_ H].
    apply IH in H. discriminate.
Qed.

(** [strip] leaves nothing exactly of the texts made of whitespace. *)
Lemma strip_empty (s : string) : Py.strip s = "" <-> all_space s = true.
Proof.
  unfold Py.strip. rewrite rstrip_empty. split.
  - intros H. apply lstrip_empty.
    destruct (lstrip_head s) as [E | (c & rest & E & Hc)]; [exact E |].
    rewrite E in H. cbn [all_space] in H. now rewrite Hc in H.
  - intros H. apply lstrip_empty in H. now rewrite H.
Qed.

(** X16. A form submitted with an empty table name does nothing at
    all: no warning, no script. The warning that asks for a table name
    is shown for the names made of whitespace only, and no script is
    made then either. In both cases the generator is not called, even
    with a chunk size that would make it raise. *)
Theorem blank_table_name (renamed : DataFrame) (table_name : string)
    (chunk_size : Z) (use_ignore truncate_table : bool) :
  all_space table_name = true ->
  submit renamed true table_name chunk_size use_ignore truncate_table
  = (if Py.str_truth table_name
     then [Warning "Please enter a table name."] else [],
     Continue None).
Proof.
  intros Hblank. unfold submit.
  destruct table_name as [|c rest]; [reflexivity |].
  cbn [Py.str_truth andb].
  apply strip_empty in Hblank. now rewrite Hblank.
Qed.

Lemma blank_table_name_witness :
  all_space "   " = true
  /\ submit sample_df true "   " 0 false true
     = ([Warning "Please enter a table name."], Continue None)
  /\ submit sample_df true "" 0 false true = ([], Continue None).
Proof.
  split; [reflexivity |]. split.
  - apply (blank_table_name sample_df "   " 0 false true). reflexivity.
  - apply (blank_table_name sample_df "" 0 false true). reflexivity.
Defined.

Lemma take_drop_chars (k : nat) (s : string) :
  Py.take_chars k s +:+ Py.drop_chars k s = s.
Proof.
  revert s. induction k as [|k IH]; intros [|c s]; try reflexivity.
  cbn [Py.take_chars Py.drop_chars]. now rewrite str_app_cons, IH.
Qed.

Lemma length_take_chars (k : nat) (s : string) :
  String.length (Py.take_chars k s) = Nat.min k (String.length s).
Proof.
  revert s. induction k as [|k IH]; intros [|c s]; try reflexivity.
  cbn [Py.take_chars String.length]. now rewrite IH.
Qed.

Lemma take_chars_all (k : nat) (s : string) :
  (String.length s <= k)%nat -> Py.take_chars k s = s.
Proof.
  revert s. induction k as [|k IH]; intros [|c s] H; try reflexivity.
  - cbn in H. lia.
  - cbn [Py.take_chars]. rewrite IH; [reflexivity | cbn in H; lia].
Qed.

Lemma preview_slice (final : string) :
  Py.str_slice final 0 preview_limit
  = Py.take_chars (Z.to_nat (Z.min preview_limit (Py.str_len final))) final.
Proof.
  unfold Py.str_slice, Py.clamp, preview_limit, Py.str_len.
  cbn [Z.ltb Z.compare].
  replace (Z.min 0 (Z.of_nat (String.length final))) with 0 by lia.
  rewrite Z.sub_0_r. now destruct final.
Qed.

(** X17. The preview is the whole output when it has at most 5000
    characters; of a longer output it is the first 5000 characters
    followed by two new lines and the notice that the preview was
    truncated. *)
Theorem preview_of_output (final : string) :
  (Py.str_len final <= preview_limit -> preview_of final = final)
  /\ (preview_limit < Py.str_len final ->
      exists shown rest : string,
        final = shown +:+ rest
        /\ Py.str_len shown = preview_limit
        /\ rest <> ""
        /\ preview_of final
           = shown +:+ nl +:+ nl +:+ "... (preview truncated) ...").
Proof.
  unfold preview_of. rewrite preview_slice. split; intros H.
  - destruct (Z.ltb_spec preview_limit (Py.str_len final)); [lia |].
    apply take_chars_all. unfold Py.str_len in *. lia.
  - destruct (Z.ltb_spec preview_limit (Py.str_len final)); [| lia].
    set (k := Z.to_nat (Z.min preview_limit (Py.str_len final))).
    exists (Py.take_chars k final), (Py.drop_chars k final).
    assert (Hlen : Py.str_len (Py.take_chars k final) = preview_limit).
    { unfold Py.str_len in *. rewrite length_take_chars. unfold k, preview_limit in *. lia. }
    split; [now rewrite take_drop_chars |]. split; [exact Hlen |].
    split; [| reflexivity].
    intros E. pose proof (take_drop_chars k final) as Hcat.
    rewrite E, str_app_empty_r in Hcat. rewrite Hcat in Hlen. lia.
Qed.

Lemma preview_of_output_witness :
  Py.str_len "INSERT INTO `t` (`a`) VALUES (1);" <= preview_limit
  /\ preview_of "INSERT INTO `t` (`a`) VALUES (1);"
     = "INSERT INTO `t` (`a`) VALUES (1);"
  /\ preview_limit < Py.str_len (String.concat "" (repeat "INSERT;" 1000))
  /\ exists shown rest : string,
       String.concat "" (repeat "INSERT;" 1000) = shown +:+ rest
       /\ Py.str_len shown = preview_limit.
Proof.
  split; [vm_compute; discriminate |]. split.
  - apply (proj1 (preview_of_output "INSERT INTO `t` (`a`) VALUES (1);")).
    vm_compute; discriminate.
  - split; [vm_compute; reflexivity |].
    destruct (proj2 (preview_of_output (String.concat "" (repeat "INSERT;" 1000)))
                ltac:(vm_compute; reflexivity))
      as (shown & rest & Hcat & Hlen & _).
    exists shown, rest. split; [exact Hcat | exact Hlen].
Defined.

Lemma submit_script (renamed : DataFrame) (submitted : bool) (table_name : string)
    (chunk_size : Z) (use_ignore truncate_table : bool) (msgs : list message)
    (sc : script) :
  submit renamed submitted table_name chunk_size use_ignore truncate_table
  = (msgs, Continue (Some sc)) ->
  submitted = true /\ all_space table_name = false
  /\ exists generated : string,
       generate_chunked_insert_queries renamed table_name chunk_size use_ignore
       = Some generated
       /\ msgs = (if truncate_table
                  then [Warning "The script includes `TRUNCATE TABLE` and will delete all existing data before inserting."]
                  else [])
       /\ sc = {| data := final_query_output truncate_table table_name generated;
                  file_name := table_name +:+ "_batch_insert.sql";
                  preview := preview_of
                               (final_query_output truncate_table table_name generated) |}.
Proof.
  unfold submit. destruct submitted; cbn [andb]; [| discriminate].
  destruct (Py.str_truth table_name) eqn:Etruth; [| discriminate].
  destruct (Py.str_truth (Py.strip table_name)) eqn:Estrip; cbn [negb]; [| discriminate].
  destruct (generate_chunked_insert_queries renamed table_name chunk_size use_ignore)
    as [generated |]; [| discriminate].
  intros H. split; [reflexivity |]. split.
  - destruct (all_space table_name) eqn:Espace; [| reflexivity].
    apply strip_empty in Espace. rewrite Espace in Estrip. discriminate.
  - exists generated. split; [reflexivity |].
    destruct truncate_table; cbn in H; injection H as <- <-; now split.
Qed.

(** What a run that offers a script went through. *)
Lemma page_offers_script (uploaded_file : upload) (text_input : string -> string)
    (submitted : bool) (table_name : string) (chunk_size : Z)
    (use_ignore truncate_table : bool) (msgs : list message) (sc : script) :
  page (Some uploaded_file) text_input submitted table_name chunk_size use_ignore
       truncate_table
  = (msgs, Continue (Some sc)) ->
  exists (df : DataFrame) (generated : string),
    load uploaded_file = ([], Continue df)
    /\ rows df <> []
    /\ NoDup (columns df)
    /\ NoDup (map text_input (columns df))
    /\ submitted = true
    /\ all_space table_name = false
    /\ generate_chunked_insert_queries
         {| columns := map text_input (columns df); rows := rows df |}
         table_name chunk_size use_ignore
       = Some generated
    /\ msgs = (if truncate_table
               then [Warning "The script includes `TRUNCATE TABLE` and will delete all existing data before inserting."]
               else [])
    /\ sc = {| data := final_query_output truncate_table table_name generated;
               file_name := table_name +:+ "_batch_insert.sql";
               preview := preview_of
                            (final_query_output truncate_table table_name generated) |}.
Proof.
  unfold page.
  destruct (load uploaded_file) as [m1 [df | |]] eqn:Eload; cbn [st_bind];
    try discriminate.
  pose proof (load_continue_inv uploaded_file m1 df Eload) as (-> & Hrows & _ & _).
  destruct (rename_step_cases text_input df) as (Hraise & Hok & Hstop).
  destruct (decide (NoDup (columns df))) as [Hcols | Hcols];
    [| rewrite (Hraise Hcols); discriminate].
  destruct (decide (NoDup (map text_input (columns df)))) as [Hnd | Hdup];
    [| rewrite (Hstop Hcols Hdup); discriminate].
  rewrite (Hok Hcols Hnd). cbn [st_bind].
  destruct (submit {| columns := map text_input (columns df); rows := rows df |}
              submitted table_name chunk_size use_ignore truncate_table)
    as [m3 r3] eqn:Esub.
  cbn [app]. intros [= -> ->].
  apply submit_script in Esub.
  destruct Esub as (Hsub & Hname & generated & Hgen & Hmsgs & Hsc).
  exists df, generated. repeat (split; [assumption || reflexivity |]). exact Hsc.
Qed.

(** A loaded table with distinct labels, distinct new names and a
    table name that is not blank: the submitted page offers a script. *)
Lemma page_runs_through (uploaded_file : upload) (df : DataFrame)
    (text_input : string -> string) (table_name : string) (chunk_size : Z)
    (use_ignore truncate_table : bool) :
  load uploaded_file = ([], Continue df) ->
  NoDup (columns df) -> NoDup (map text_input (columns df)) ->
  all_space table_name = false -> 1 <= chunk_size ->
  exists (msgs : list message) (sc : script),
    page (Some uploaded_file) text_input true table_name chunk_size use_ignore
         truncate_table
    = (msgs, Continue (Some sc)).
Proof.
  intros Hload Hcols Hnd Hname Hc. unfold page. rewrite Hload. cbn [st_bind].
  rewrite (proj1 (proj2 (rename_step_cases text_input df)) Hcols Hnd). cbn [st_bind].
  unfold submit.
  assert (Hstrip : Py.str_truth (Py.strip table_name) = true).
  { destruct (Py.strip table_name) eqn:E; [| reflexivity].
    apply strip_empty in E. congruence. }
  assert (Htruth : Py.str_truth table_name = true)
    by (destruct table_name; [discriminate | reflexivity]).
  rewrite Htruth, Hstrip. cbn [andb negb].
  unfold generate_chunked_insert_queries. rewrite insert_queries_eq by exact Hc.
  destruct truncate_table; cbn; eauto.
Qed.

(** An upload whose parser returns a table without rows stops at the
    check for an empty upload. *)
Lemma empty_upload_stops (uploaded_file : upload) (df : DataFrame)
    (text_input : string -> string) (submitted : bool) (table_name : string)
    (chunk_size : Z) (use_ignore truncate_table : bool) :
  rows df = [] ->
  (file_type (name uploaded_file) = "csv" /\ read_csv uploaded_file = ReadOk df)
  \/ ((file_type (name uploaded_file) = "xlsx"
       \/ file_type (name uploaded_file) = "xls")
      /\ read_excel uploaded_file = ReadOk df) ->
  page (Some uploaded_file) text_input submitted table_name chunk_size use_ignore
       truncate_table
  = ([Warning "The uploaded file is empty."], Stopped).
Proof.
  intros Hrows Hsrc.
  assert (Eempty : df_empty df = true) by (unfold df_empty; now rewrite Hrows).
  unfold page, load.
  destruct Hsrc as [[-> ->] | [[-> | ->] ->]]; cbn; now rewrite Eempty.
Qed.

(** X18. When the page offers a script, with a chunk size of at least
    one: the upload was loaded without a message into a table with
    rows, the names entered in the rename form are pairwise different,
    the form was submitted with a table name that is not blank; the
    file offered is named after the table, holds the whole output (the
    statements of the chunks of the original rows under the new column
    names, at least one, after the TRUNCATE line when asked for) and the
    preview is cut from that same output. The only message is the
    TRUNCATE warning, shown exactly with the flag. *)
Theorem page_script (uploaded_file : upload) (text_input : string -> string)
    (submitted : bool) (table_name : string) (chunk_size : Z)
    (use_ignore truncate_table : bool) (msgs : list message) (sc : script) :
  1 <= chunk_size ->
  page (Some uploaded_file) text_input submitted table_name chunk_size use_ignore
       truncate_table
  = (msgs, Continue (Some sc)) ->
  exists df : DataFrame,
    load uploaded_file = ([], Continue df)
    /\ rows df <> []
    /\ NoDup (map text_input (columns df))
    /\ submitted = true
    /\ all_space table_name = false
    /\ msgs = (if truncate_table
               then [Warning "The script includes `TRUNCATE TABLE` and will delete all existing data before inserting."]
               else [])
    /\ chunks_of df chunk_size <> []
    /\ data sc
       = final_query_output truncate_table table_name
           (Py.join separator
              (map (statement use_ignore table_name (map text_input (columns df)))
                   (chunks_of df chunk_size)))
    /\ file_name sc = table_name +:+ "_batch_insert.sql"
    /\ preview sc = preview_of (data sc).
Proof.
  intros Hc Hpage.
  destruct (page_offers_script _ _ _ _ _ _ _ _ _ Hpage)
    as (df & generated & Hload & Hrows & _ & Hnd & Hsub & Hname & Hgen & Hmsgs & ->).
  unfold generate_chunked_insert_queries in Hgen.
  rewrite insert_queries_eq in Hgen by exact Hc. injection Hgen as <-.
  exists df. cbn [data file_name preview columns].
  repeat (split; [assumption || reflexivity |]).
  split; [| repeat split].
  intros E. apply Hrows. rewrite <- (concat_chunks_of df chunk_size Hc).
  now rewrite E.
Qed.

Lemma page_script_witness :
  1 <= 2
  /\ exists (df : DataFrame) (sc : script),
       load {| name := "people.csv"; read_csv := ReadOk sample_df;
               read_excel := ReadRaises "not a workbook" |}
       = ([], Continue df)
       /\ rows df <> []
       /\ file_name sc = "users_batch_insert.sql".
Proof.
  split; [lia |].
  destruct (page_script
              {| name := "people.csv"; read_csv := ReadOk sample_df;
                 read_excel := ReadRaises "not a workbook" |}
              (fun col => col) true "users" 2 false true _ _ ltac:(lia)
              ltac:(vm_compute; reflexivity))
    as (df & Hload & Hrows & _ & _ & _ & _ & _ & _ & Hfile & _).
  eexists df, _. split; [exact Hload |]. split; [exact Hrows | exact Hfile].
Defined.

(** X19. When two column labels of the loaded table have the same
    text, the page ends in an uncaught exception at the rename form,
    whatever the form holds: no error about duplicate names is shown
    and no script is offered. *)
Theorem page_raises_on_duplicate_labels (uploaded_file : upload) (df : DataFrame)
    (text_input : string -> string) (submitted : bool) (table_name : string)
    (chunk_size : Z) (use_ignore truncate_table : bool) :
  load uploaded_file = ([], Continue df) ->
  ~ NoDup (columns df) ->
  page (Some uploaded_file) text_input submitted table_name chunk_size use_ignore
       truncate_table
  = ([], Raised).
Proof.
  intros Hload Hdup. unfold page. rewrite Hload. cbn [st_bind].
  now rewrite (proj1 (rename_step_cases text_input df) Hdup).
Qed.

Lemma page_raises_on_duplicate_labels_witness :
  page (Some {| name := "sheet.xlsx"; read_csv := ReadRaises "not a text file";
                read_excel := ReadOk {| columns := ["1"; "1"];
                                        rows := [[PyInt 7; PyInt 8]] |} |})
       (fun col => col) true "users" 10 false false
  = ([], Raised).
Proof.
  apply (page_raises_on_duplicate_labels
           {| name := "sheet.xlsx"; read_csv := ReadRaises "not a text file";
              read_excel := ReadOk {| columns := ["1"; "1"];
                                      rows := [[PyInt 7; PyInt 8]] |} |}
           {| columns := ["1"; "1"]; rows := [[PyInt 7; PyInt 8]] |}).
  - reflexivity.
  - cbn [columns]. intros H. apply NoDup_cons in H. destruct H as [H _].
    apply H. left.
Defined.

(** ** The TRUNCATE line *)

(** C7. With the truncate flag, one [TRUNCATE TABLE] statement for the
    table and two new lines are put in front of the generator's output
    by concatenation, and without the flag the output is the
    generator's output: this for every table that reaches the submit
    handler, and the tables that reach it have at least one row. Every
    script the page offers is of this form; a loaded table with
    distinct labels, distinct new names and a table name that is not
    blank gets one. An upload whose table has no row stops at the check
    for an empty upload: it gets no script and no TRUNCATE line. *)
Theorem truncate_prepended (uploaded_file : upload) (text_input : string -> string)
    (submitted : bool) (table_name : string) (chunk_size : Z)
    (use_ignore truncate_table : bool) :
  (forall generated : string,
     final_query_output true table_name generated
     = ("TRUNCATE TABLE `" +:+ table_name +:+ "`;" +:+ nl +:+ nl) +:+ generated
     /\ final_query_output false table_name generated = generated)
  /\ (forall (msgs : list message) (sc : script),
        page (Some uploaded_file) text_input submitted table_name chunk_size
             use_ignore truncate_table
        = (msgs, Continue (Some sc)) ->
        exists (df renamed : DataFrame) (generated : string),
          load uploaded_file = ([], Continue df)
          /\ rows df <> []
          /\ rows renamed = rows df
          /\ generate_chunked_insert_queries renamed table_name chunk_size use_ignore
             = Some generated
          /\ data sc
             = (if truncate_table
                then ("TRUNCATE TABLE `" +:+ table_name +:+ "`;" +:+ nl +:+ nl)
                     +:+ generated
                else generated))
  /\ (forall df : DataFrame,
        load uploaded_file = ([], Continue df) ->
        NoDup (columns df) -> NoDup (map text_input (columns df)) ->
        submitted = true -> all_space table_name = false -> 1 <= chunk_size ->
        exists (msgs : list message) (sc : script),
          page (Some uploaded_file) text_input submitted table_name chunk_size
               use_ignore truncate_table
          = (msgs, Continue (Some sc)))
  /\ (forall df : DataFrame,
        rows df = [] ->
        (file_type (name uploaded_file) = "csv" /\ read_csv uploaded_file = ReadOk df)
        \/ ((file_type (name uploaded_file) = "xlsx"
             \/ file_type (name uploaded_file) = "xls")
            /\ read_excel uploaded_file = ReadOk df) ->
        page (Some uploaded_file) text_input submitted table_name chunk_size
             use_ignore truncate_table
        = ([Warning "The uploaded file is empty."], Stopped)).
Proof.
  split; [intros generated; split; reflexivity |]. split; [| split].
  - intros msgs sc Hpage.
    destruct (page_offers_script _ _ _ _ _ _ _ _ _ Hpage)
      as (df & generated & Hload & Hrows & _ & _ & _ & _ & Hgen & _ & ->).
    exists df, {| columns := map text_input (columns df); rows := rows df |}, generated.
    split; [exact Hload |]. split; [exact Hrows |]. split; [reflexivity |].
    split; [exact Hgen |]. now destruct truncate_table.
  - intros df Hload Hcols Hnd -> Hname Hc. now apply (page_runs_through _ df).
  - intros df Hrows Hsrc. now apply (empty_upload_stops _ df).
Qed.

Lemma truncate_prepended_witness :
  (load {| name := "people.csv"; read_csv := ReadOk sample_df;
           read_excel := ReadRaises "not a workbook" |}
   = ([], Continue sample_df)
   /\ 1 <= 2
   /\ exists (msgs : list message) (sc : script) (generated : string),
        page (Some {| name := "people.csv"; read_csv := ReadOk sample_df;
                      read_excel := ReadRaises "not a workbook" |})
             (fun col => col) true "users" 2 false true
        = (msgs, Continue (Some sc))
        /\ generate_chunked_insert_queries sample_df "users" 2 false = Some generated
        /\ data sc = ("TRUNCATE TABLE `users`;" +:+ nl +:+ nl) +:+ generated)
  /\ (rows {| columns := ["id"]; rows := [] |} = []
      /\ page (Some {| name := "empty.xls"; read_csv := ReadRaises "not a text file";
                       read_excel := ReadOk {| columns := ["id"]; rows := [] |} |})
              (fun col => col) true "users" 2 false true
         = ([Warning "The uploaded file is empty."], Stopped)).
Proof.
  split.
  - split; [reflexivity |]. split; [lia |].
    destruct (truncate_prepended
                {| name := "people.csv"; read_csv := ReadOk sample_df;
                   read_excel := ReadRaises "not a workbook" |}
                (fun col => col) true "users" 2 false true)
      as (_ & Hform & Hruns & _).
    destruct (Hruns sample_df) as (msgs & sc & Hpage).
    + reflexivity.
    + vm_compute. repeat constructor; rewrite ?elem_of_cons, ?elem_of_nil;
        intuition discriminate.
    + vm_compute. repeat constructor; rewrite ?elem_of_cons, ?elem_of_nil;
        intuition discriminate.
    + reflexivity.
    + reflexivity.
    + lia.
    + destruct (Hform msgs sc Hpage)
        as (df & renamed & generated & _ & _ & _ & _ & Hdata).
      exists msgs, sc.
      vm_compute in Hpage. injection Hpage as <- <-.
      eexists. split; [reflexivity |]. split; [vm_compute; reflexivity |].
      vm_compute. reflexivity.
  - split; [reflexivity |].
    destruct (truncate_prepended
                {| name := "empty.xls"; read_csv := ReadRaises "not a text file";
                   read_excel := ReadOk {| columns := ["id"]; rows := [] |} |}
                (fun col => col) true "users" 2 false true)
      as (_ & _ & _ & Hempty).
    apply (Hempty {| columns := ["id"]; rows := [] |}); [reflexivity |].
    right. split; [now right | reflexivity].
Defined.

(** The claim as the specification words it fails on a table without
    rows: with the truncate flag set and the form submitted, the page
    stops at the check for an empty upload and offers nothing, so that
    no [TRUNCATE TABLE] statement is produced. *)
Lemma truncate_zero_rows_counterexample :
  page (Some {| name := "empty.csv";
                read_csv := ReadOk {| columns := ["id"]; rows := [] |};
                read_excel := ReadRaises "not a workbook" |})
       (fun col => col) true "users" 1000 false true
  = ([Warning "The uploaded file is empty."], Stopped)
  /\ ~ (exists (msgs : list message) (sc : script),
         page (Some {| name := "empty.csv";
                       read_csv := ReadOk {| columns := ["id"]; rows := [] |};
                       read_excel := ReadRaises "not a workbook" |})
              (fun col => col) true "users" 1000 false true
         = (msgs, Continue (Some sc))).
Proof.
  split; [reflexivity |]. intros (msgs & sc & H). vm_compute in H. discriminate H.
Defined.
